(** * Vendor security assessment tool: evidence mapping and risk scoring

    A shallow embedding of the evidence-to-question mapping and risk-scoring
    pipeline ([evidence_extractor.py], [questionnaire_mapper.py],
    [risk_assessor.py] and the evidence conversion of
    [web_search_agent.py]) together with the properties its specification
    states about it.

    Modelling conventions.
    - Python [str] values are [string]s over the ASCII alphabet; [lower],
      [split], [strip] and the regular expression class [\s] follow Python's
      behaviour on ASCII text (the white-space characters are the code points
      9-13 and 28-32).
    - Python dictionaries with a fixed set of keys are records; dictionaries
      built key by key are association lists in insertion order.
    - Similarity scores and the risk score are rationals ([Q]): the result of
      a Python true division is the exact quotient, and the decimal literals
      [0.3], [0.4], [0.6], [30], [50], [70] are the numbers they denote.  For
      ratios of lengths up to 100 every comparison made on them has the same
      outcome in binary64 ([similarity_comparisons_agree],
      [level_comparisons_agree]).
    - The products [len(category_questions) * 0.5] and
      [len(category_questions) * 0.7] are evaluated in IEEE-754 binary64
      ([PrimFloat]), as Python evaluates them, because there the rounding of
      the literal [0.7] is observable: [90 * 0.7] is less than 63.
    - [list(set(xs))] enumerates the distinct elements of [xs] in an order
      chosen by the interpreter (it follows the hash values of the strings,
      which differ from one interpreter process to the next); the
      enumeration is a parameter of the risk assessor.
    - [re.finditer] for the certification patterns is a parameter of the
      evidence extractor. *)

From Stdlib Require Import List String Ascii Bool Arith ZArith QArith Qround.
From Stdlib Require Import Lia Lqa Permutation Sorted DecimalString.
From Stdlib Require Import Floats Uint63.
Import ListNotations.

Set Warnings "-inexact-float".

Local Close Scope Q_scope.
Local Open Scope string_scope.
Local Open Scope list_scope.
Local Open Scope nat_scope.

(** ** Python string primitives *)

Module PyStr.

(** [c.isspace()] for an ASCII character: TAB, LF, VT, FF, CR, the four
    separators FS, GS, RS, US, and the space. *)
Definition isspace (c : ascii) : bool :=
  let n := nat_of_ascii c in
  ((9 <=? n) && (n <=? 13)) || ((28 <=? n) && (n <=? 32)).

Definition isupper (c : ascii) : bool :=
  let n := nat_of_ascii c in (65 <=? n) && (n <=? 90).

Definition islower (c : ascii) : bool :=
  let n := nat_of_ascii c in (97 <=? n) && (n <=? 122).

Definition lower_char (c : ascii) : ascii :=
  if isupper c then ascii_of_nat (nat_of_ascii c + 32) else c.

Definition upper_char (c : ascii) : ascii :=
  if islower c then ascii_of_nat (nat_of_ascii c - 32) else c.

(** [s.lower()] *)
Fixpoint lower (s : string) : string :=
  match s with
  | EmptyString => EmptyString
  | String c s' => String (lower_char c) (lower s')
  end.

(** [s[:n]] *)
Definition slice_to (n : nat) (s : string) : string := substring 0 n s.

(** Does [s] start with a white-space character? *)
Definition starts_with_space (s : string) : bool :=
  match s with
  | EmptyString => false
  | String c _ => isspace c
  end.

(** Put [c] in front of the first string of [l]. *)
Definition cons_first (c : ascii) (l : list string) : list string :=
  match l with
  | [] => [String c EmptyString]
  | w :: ws => String c w :: ws
  end.

(** [s.split()]: the maximal runs of characters that are not white space. *)
Fixpoint split (s : string) : list string :=
  match s with
  | EmptyString => []
  | String c s' =>
      if isspace c then split s'
      else
        match s' with
        | EmptyString => [String c EmptyString]
        | String c' _ =>
            if isspace c' then String c EmptyString :: split s'
            else cons_first c (split s')
        end
  end.

(** [s.lstrip()], [s.rstrip()], [s.strip()] *)
Fixpoint lstrip (s : string) : string :=
  match s with
  | EmptyString => EmptyString
  | String c s' => if isspace c then lstrip s' else s
  end.

Fixpoint rstrip (s : string) : string :=
  match s with
  | EmptyString => EmptyString
  | String c s' =>
      match rstrip s' with
      | EmptyString => if isspace c then EmptyString else String c EmptyString
      | r => String c r
      end
  end.

Definition strip (s : string) : string := rstrip (lstrip s).

(** [needle in hay] *)
Fixpoint contains (needle hay : string) : bool :=
  prefix needle hay ||
  match hay with
  | EmptyString => false
  | String _ hay' => contains needle hay'
  end.

(** [s.replace(old, new)] for one-character [old] and [new]. *)
Fixpoint replace_char (old new : ascii) (s : string) : string :=
  match s with
  | EmptyString => EmptyString
  | String c s' =>
      String (if Ascii.eqb c old then new else c) (replace_char old new s')
  end.

(** [s.title()]: a letter that follows a letter is lowered, any other letter
    is raised. *)
Fixpoint title_from (prev_cased : bool) (s : string) : string :=
  match s with
  | EmptyString => EmptyString
  | String c s' =>
      if isupper c || islower c
      then String (if prev_cased then lower_char c else upper_char c)
                  (title_from true s')
      else String c (title_from false s')
  end.

Definition title (s : string) : string := title_from false s.

(** [str(n)] for a natural number. *)
Definition str_of_nat (n : nat) : string :=
  NilEmpty.string_of_uint (Nat.to_uint n).

(** The terminators of the sentence pattern [[.!?]]. *)
Definition is_terminator (c : ascii) : bool :=
  Ascii.eqb c "." || Ascii.eqb c "!" || Ascii.eqb c "?".

(** [re.split(r'[.!?]\s+', s)].  With [skipping] set the scan is inside the
    white space of a match that has already closed a segment. *)
Fixpoint re_split_from (skipping : bool) (s : string) : list string :=
  match s with
  | EmptyString => [EmptyString]
  | String c s' =>
      if skipping && isspace c then re_split_from true s'
      else if is_terminator c && starts_with_space s'
      then EmptyString :: re_split_from true s'
      else cons_first c (re_split_from false s')
  end.

Definition re_split_sentences (s : string) : list string :=
  re_split_from false s.

(** Membership of a string in a list, [x in l]. *)
Definition mem (x : string) (l : list string) : bool :=
  existsb (String.eqb x) l.

(** [set(l)] as far as its elements and its size go: the distinct elements
    of [l]. *)
Definition distinct (l : list string) : list string := nodup string_dec l.

End PyStr.

(** ** Python containers *)

Module PyDict.

Section Dict.
Context {V : Type}.

(** [d.get(k)] *)
Fixpoint get (d : list (string * V)) (k : string) : option V :=
  match d with
  | [] => None
  | (k', v) :: d' => if String.eqb k k' then Some v else get d' k
  end.

(** [d.get(k, default)] *)
Definition get_default (d : list (string * V)) (k : string) (default : V) : V :=
  match get d k with
  | Some v => v
  | None => default
  end.

(** [d[k] = v]: a key that is present keeps its place, a new key goes last. *)
Fixpoint set (d : list (string * V)) (k : string) (v : V) : list (string * V) :=
  match d with
  | [] => [(k, v)]
  | (k', v') :: d' =>
      if String.eqb k k' then (k, v) :: d' else (k', v') :: set d' k v
  end.

(** [dict(pairs)] *)
Definition of_pairs (l : list (string * V)) : list (string * V) :=
  fold_left (fun d kv => set d (fst kv) (snd kv)) l [].

Definition keys (d : list (string * V)) : list string := map fst d.
Definition values (d : list (string * V)) : list V := map snd d.

End Dict.

End PyDict.

Module PyList.

Section Sort.
Context {A : Type}.
(** [before x y]: [x] may stay in front of [y]. *)
Variable before : A -> A -> bool.

Fixpoint insert (x : A) (l : list A) : list A :=
  match l with
  | [] => [x]
  | y :: l' => if before x y then x :: l else y :: insert x l'
  end.

(** A stable sort: of two elements that may stay in front of each other the
    one that came first stays first, as in Python's [list.sort]. *)
Definition sort (l : list A) : list A := fold_right insert [] l.

End Sort.

(** [l.sort(key=key)] with natural-number keys. *)
Definition sort_by_key {A : Type} (key : A -> nat) (l : list A) : list A :=
  sort (fun x y => key x <=? key y) l.

(** [l.sort(key=key, reverse=True)] with rational keys. *)
Definition sort_by_key_reverse {A : Type} (key : A -> Q) (l : list A) : list A :=
  sort (fun x y => Qle_bool (key y) (key x)) l.

End PyList.

(** ** evidence_extractor.py *)

Module EvidenceExtractor.

Import PyStr.

Definition SECURITY_KEYWORDS : list string :=
  [ "encryption"; "authentication"; "authorization"; "access control";
    "audit"; "logging"; "monitoring"; "backup"; "disaster recovery";
    "incident response"; "vulnerability"; "patch management"; "firewall";
    "antivirus"; "malware"; "penetration test"; "security assessment";
    "compliance"; "gdpr"; "hipaa"; "soc 2"; "iso 27001"; "pci dss";
    "data protection"; "privacy"; "confidentiality"; "integrity";
    "availability"; "multi-factor"; "mfa"; "2fa"; "ssl"; "tls";
    "certificate"; "key management"; "secrets"; "password policy";
    "security training"; "awareness"; "background check"; "vendor management" ].

(** An entry of the evidence library.  [row_data] is [None] both for an item
    without that key and for a table row whose length differs from the
    header's. *)
Record EvidenceItem : Type := {
  text : string;
  keywords : list string;
  source : string;
  confidence : string;
  type : string;
  row_data : option (list (string * string))
}.

(** [[kw for kw in self.SECURITY_KEYWORDS if kw in lowered]] *)
Definition matched_keywords (lowered : string) : list string :=
  filter (fun kw => contains kw lowered) SECURITY_KEYWORDS.

(** The body of the loop of [extract_from_text] for one element of
    [sentences]. *)
Definition extract_sentence (source_ref sentence : string) : list EvidenceItem :=
  let sentence := strip sentence in
  if String.length sentence <? 20 then []
  else
    let matched := matched_keywords (lower sentence) in
    match matched with
    | [] => []
    | _ :: _ =>
        [ {| text := sentence;
             keywords := matched;
             source := source_ref;
             confidence := if 1 <? List.length matched then "medium" else "low";
             type := "control_statement";
             row_data := None |} ]
    end.

Definition extract_from_text (text source_ref : string) : list EvidenceItem :=
  flat_map (extract_sentence source_ref) (re_split_sentences text).

(** A cell is a string; the empty string is the cell that Python treats as
    false. *)
Definition cell_is_true (cell : string) : bool :=
  negb (String.eqb cell "").

(** The body of the loop of [extract_from_table] for one data row. *)
Definition extract_row (source_ref : string) (headers : list string)
    (row_idx : nat) (row : list string) : list EvidenceItem :=
  let row_text := String.concat " " (filter cell_is_true row) in
  let matched := matched_keywords (lower row_text) in
  match matched with
  | [] => []
  | _ :: _ =>
      [ {| text := row_text;
           keywords := matched;
           source := (source_ref ++ " (Row " ++ str_of_nat row_idx ++ ")")%string;
           confidence := "high";
           type := "table_entry";
           row_data :=
             if List.length headers =? List.length row
             then Some (PyDict.of_pairs (combine headers row))
             else None |} ]
  end.

Definition extract_from_table (table_data : list (list string))
    (source_ref : string) : list EvidenceItem :=
  match table_data with
  | [] => []
  | headers :: rows =>
      if List.length table_data <? 2 then []
      else
        flat_map (fun ir => extract_row source_ref headers (fst ir) (snd ir))
                 (combine (seq 1 (List.length rows)) rows)
  end.

(** A certification found by [extract_certifications]. *)
Module Certification.
Record t : Type := {
  certification : string;
  context : string;
  source : string;
  confidence : string;
  type : string
}.
End Certification.

(** An entry of [evidence_library]: a statement, a table row or a web
    result, or a certification. *)
Inductive LibraryItem : Type :=
| Evidence (item : EvidenceItem)
| Certificate (cert : Certification.t).

(** [item['confidence']] and [item['type']] *)
Definition item_confidence (item : LibraryItem) : string :=
  match item with
  | Evidence e => confidence e
  | Certificate c => Certification.confidence c
  end.

Definition item_type (item : LibraryItem) : string :=
  match item with
  | Evidence e => type e
  | Certificate c => Certification.type c
  end.

Definition cert_patterns : list string :=
  [ "SOC\s*[123]\s*Type\s*[12]"; "ISO\s*27001"; "ISO\s*27017"; "ISO\s*27018";
    "PCI\s*DSS"; "HIPAA"; "GDPR"; "CCPA"; "FedRAMP" ].

(** A parsed document, as the document parser hands it over. *)
Record Page : Type := {
  page_num : nat;
  page_text : string
}.

Record Table : Type := {
  page : nat;
  table_index : nat;
  data : list (list string)
}.

Record Sheet : Type := {
  sheet_name : string;
  sheet_data : list (list string)
}.

Record ParsedDocument : Type := {
  doc_type : string;
  filename : string;
  pages : list Page;
  tables : list Table;
  sheets : list Sheet
}.

Section Extraction.

(** [re.finditer(pattern, text, re.IGNORECASE)]: the [(start, end)] of the
    matches, in the order of the iterator. *)
Variable finditer : string -> string -> list (nat * nat).

Definition extract_certifications (text source_ref : string)
    : list Certification.t :=
  flat_map
    (fun pattern =>
       map (fun span =>
              let start := fst span - 100 in
              let stop := Nat.min (String.length text) (snd span + 100) in
              {| Certification.certification :=
                   substring (fst span) (snd span - fst span) text;
                 Certification.context :=
                   strip (substring start (stop - start) text);
                 Certification.source := source_ref;
                 Certification.confidence := "high";
                 Certification.type := "certification" |})
           (finditer pattern text))
    cert_patterns.

(** The body of the loop of [extract_all] for one document. *)
Definition extract_document (doc : ParsedDocument) : list LibraryItem :=
  if String.eqb (doc_type doc) "pdf"
  then
    flat_map
      (fun p =>
         let source_ref :=
           (filename doc ++ " (Page " ++ str_of_nat (page_num p) ++ ")")%string in
         map Evidence (extract_from_text (page_text p) source_ref)
         ++ map Certificate (extract_certifications (page_text p) source_ref))
      (pages doc)
    ++ flat_map
         (fun t =>
            let source_ref :=
              (filename doc ++ " (Page " ++ str_of_nat (page t) ++ ", Table "
               ++ str_of_nat (table_index t) ++ ")")%string in
            map Evidence (extract_from_table (data t) source_ref))
         (tables doc)
  else if String.eqb (doc_type doc) "excel"
  then
    flat_map
      (fun sh =>
         let source_ref :=
           (filename doc ++ " (Sheet: " ++ sheet_name sh ++ ")")%string in
         let all_text :=
           String.concat " "
             (map (fun row => String.concat " " (filter cell_is_true row))
                  (sheet_data sh)) in
         map Evidence (extract_from_text all_text source_ref)
         ++ map Evidence (extract_from_table (sheet_data sh) source_ref))
      (sheets doc)
  else [].

Definition extract_all (parsed_documents : list ParsedDocument)
    : list LibraryItem :=
  flat_map extract_document parsed_documents.

End Extraction.

End EvidenceExtractor.

(** ** web_search_agent.py: the conversion to evidence *)

Module WebSearchAgent.

Module Control.
Record t : Type := {
  title : string;
  snippet : string;
  url : string;
  keywords : list string;
  confidence : string;
  vendor_name : string
}.
End Control.

Module Incident.
Record t : Type := {
  title : string;
  snippet : string;
  url : string;
  keywords : list string;
  year : string;
  vendor_name : string
}.
End Incident.

Record SearchResults : Type := {
  controls : list Control.t;
  incidents : list Incident.t
}.

Definition control_evidence (control : Control.t)
    : EvidenceExtractor.EvidenceItem :=
  {| EvidenceExtractor.text :=
       (Control.title control ++ ". " ++ Control.snippet control)%string;
     EvidenceExtractor.keywords := Control.keywords control;
     EvidenceExtractor.source := ("Web Search: " ++ Control.url control)%string;
     EvidenceExtractor.confidence := Control.confidence control;
     EvidenceExtractor.type := "web_search_control";
     EvidenceExtractor.row_data := None |}.

Definition incident_evidence (incident : Incident.t)
    : EvidenceExtractor.EvidenceItem :=
  {| EvidenceExtractor.text :=
       ("[" ++ Incident.year incident ++ "] " ++ Incident.title incident
        ++ ". " ++ Incident.snippet incident)%string;
     EvidenceExtractor.keywords := Incident.keywords incident;
     EvidenceExtractor.source := ("Web Search: " ++ Incident.url incident)%string;
     EvidenceExtractor.confidence := "HIGH";
     EvidenceExtractor.type := "web_search_incident";
     EvidenceExtractor.row_data := None |}.

Definition to_evidence_format (search_results : SearchResults)
    : list EvidenceExtractor.EvidenceItem :=
  map control_evidence (controls search_results)
  ++ map incident_evidence (incidents search_results).

(** *** The controls found in raw search results *)

Definition SECURITY_CONTROL_KEYWORDS : list string :=
  [ "encryption"; "authentication"; "mfa"; "soc 2"; "iso 27001";
    "penetration test"; "vulnerability scan"; "compliance"; "certification";
    "audit"; "security policy"; "access control"; "data protection";
    "incident response"; "backup"; "disaster recovery"; "gdpr"; "hipaa" ].

(** A raw search result, read with [result.get('title', '')],
    [result.get('snippet', '')] and [result.get('url', '')]. *)
Module Result.
Record t : Type := {
  title : string;
  snippet : string;
  url : string
}.
End Result.

(** [any(term in s for term in terms)] *)
Definition any_in (terms : list string) (s : string) : bool :=
  existsb (fun term => PyStr.contains term s) terms.

Definition high_conf_domains : list string :=
  ["aicpa.org"; "iso.org"; "trustpage.com"; "securityscorecard.com"].

Definition medium_conf_domains : list string :=
  ["wikipedia.org"; "docs."; "help."; "support."].

Definition _assess_confidence (url : string) (keyword_count : nat)
    (text : string) : string :=
  if any_in high_conf_domains (PyStr.lower url) then "HIGH"
  else if 3 <=? keyword_count then "HIGH"
  else if any_in medium_conf_domains (PyStr.lower url) || (keyword_count =? 2)
  then "MEDIUM"
  else "LOW".

(** [[term.lower() for term in vendor_name.split()
      if len(term) > 3 and term.lower() not in ['inc', ...]]] *)
Definition vendor_key_terms (vendor_name : string) : list string :=
  map PyStr.lower
    (filter
       (fun term =>
          (3 <? String.length term)
          && negb (PyStr.mem (PyStr.lower term)
                             ["inc"; "corp"; "ltd"; "llc"; "the"]))
       (PyStr.split vendor_name)).

(** The boost of the confidence of a result whose URL names the vendor. *)
Definition boost (confidence : string) : string :=
  if String.eqb confidence "LOW" then "MEDIUM"
  else if String.eqb confidence "MEDIUM" then "HIGH"
  else confidence.

(** The body of the loop of [_extract_control_information] for one result. *)
Definition extract_control (vendor_name : string) (result : Result.t)
    : list Control.t :=
  let combined_text :=
    PyStr.lower (Result.title result ++ " " ++ Result.snippet result) in
  let vendor_mentioned :=
    PyStr.contains (PyStr.lower vendor_name) combined_text
    || any_in (vendor_key_terms vendor_name) combined_text in
  if negb vendor_mentioned then []
  else
    let matched_keywords :=
      filter (fun kw => PyStr.contains kw combined_text)
             SECURITY_CONTROL_KEYWORDS in
    match matched_keywords with
    | [] => []
    | _ :: _ =>
        let confidence :=
          _assess_confidence (Result.url result)
            (List.length matched_keywords) combined_text in
        let confidence :=
          if any_in (vendor_key_terms vendor_name)
                    (PyStr.lower (Result.url result))
          then boost confidence else confidence in
        [ {| Control.title := Result.title result;
             Control.snippet := Result.snippet result;
             Control.url := Result.url result;
             Control.keywords := matched_keywords;
             Control.confidence := confidence;
             Control.vendor_name := vendor_name |} ]
    end.

Definition _extract_control_information (results : list Result.t)
    (vendor_name : string) : list Control.t :=
  flat_map (extract_control vendor_name) results.

(** *** The removal of duplicate results *)

Section Deduplicate.

Context {A : Type}.

(** [result.get('url', '')] *)
Variable url_of : A -> string.

(** The loop of [_deduplicate_results], with the set [seen_urls] as the list
    of its elements: the loop only tests membership. *)
Fixpoint deduplicate_from (seen_urls : list string) (results : list A)
    : list A :=
  match results with
  | [] => []
  | result :: rest =>
      let url := url_of result in
      if negb (String.eqb url "") && negb (PyStr.mem url seen_urls)
      then result :: deduplicate_from (url :: seen_urls) rest
      else deduplicate_from seen_urls rest
  end.

Definition _deduplicate_results (results : list A) : list A :=
  deduplicate_from [] results.

End Deduplicate.

End WebSearchAgent.

(** ** questionnaire_mapper.py *)

Module QuestionnaireMapper.

Import PyStr.

(** [a > b] and [a < b] on scores. *)
Definition Qgt_bool (a b : Q) : bool := negb (Qle_bool a b).
Definition Qlt_bool (a b : Q) : bool := negb (Qle_bool b a).

(** A question of the questionnaire, as [load_questionnaire] builds it. *)
Record Question : Type := {
  q_id : string;
  q_question : string;
  q_category : string;
  q_row_num : nat
}.

(** An element of [matched_evidence]. *)
Record MatchedEvidence : Type := {
  evidence_text : string;
  source : string;
  keywords : list string;
  similarity_score : Q;
  evidence_type : string
}.

(** An element of [question_mappings]. *)
Record QuestionMapping : Type := {
  question_id : string;
  question : string;
  category : string;
  answer : string;
  evidence : list MatchedEvidence;
  confidence : string;
  gaps : list string
}.

Section Mapper.

(** [self.model]: [None] when the sentence transformer could not be loaded;
    otherwise the cosine similarity of the two embeddings, [None] standing
    for an exception raised while computing it. *)
Variable model : option (string -> string -> option Q).

Definition calculate_similarity (question evidence_text : string) : Q :=
  match model with
  | None =>
      let question_words := distinct (split (lower question)) in
      let evidence_words := distinct (split (lower evidence_text)) in
      let overlap :=
        List.length (filter (fun w => mem w evidence_words) question_words) in
      match question_words with
      | [] => 0%Q
      | _ :: _ =>
          (inject_Z (Z.of_nat overlap)
           / inject_Z (Z.of_nat (List.length question_words)))%Q
      end
  | Some similarity =>
      match similarity question evidence_text with
      | Some s => s
      | None => 0%Q
      end
  end.

Definition _generate_answer (evidence_list : list MatchedEvidence)
    : string * string :=
  match evidence_list with
  | [] => ("Insufficient Evidence", "NOT_FOUND")
  | top :: _ =>
      if Qgt_bool (similarity_score top) (6 # 10)
      then (("Yes - " ++ slice_to 200 (evidence_text top) ++ "...")%string, "HIGH")
      else if Qgt_bool (similarity_score top) (4 # 10)
      then ("Partially Addressed - See evidence", "MEDIUM")
      else ("Insufficient Evidence", "LOW")
  end.

Definition _identify_gaps (question : string)
    (evidence_list : list MatchedEvidence) : list string :=
  (match evidence_list with
   | [] => ["No evidence found in vendor documentation"]
   | top :: _ =>
       if Qlt_bool (similarity_score top) (4 # 10)
       then ["Evidence is weak or indirect"]
       else []
   end)
  ++ (if List.length evidence_list <? 2
      then ["Single source only - requires corroboration"]
      else []).

(** The inner loop of [map_evidence_to_questions]: the evidence whose
    similarity to the question reaches the threshold, in library order. *)
Definition find_evidence (question_text : string)
    (evidence_library : list EvidenceExtractor.EvidenceItem) (threshold : Q)
    : list MatchedEvidence :=
  flat_map
    (fun ev =>
       let similarity :=
         calculate_similarity question_text (EvidenceExtractor.text ev) in
       if Qle_bool threshold similarity
       then [ {| evidence_text := EvidenceExtractor.text ev;
                 source := EvidenceExtractor.source ev;
                 keywords := EvidenceExtractor.keywords ev;
                 similarity_score := similarity;
                 evidence_type := EvidenceExtractor.type ev |} ]
       else [])
    evidence_library.

(** The body of the outer loop for one question. *)
Definition map_question
    (evidence_library : list EvidenceExtractor.EvidenceItem) (threshold : Q)
    (q : Question) : QuestionMapping :=
  let question_text := q_question q in
  let matched_evidence :=
    PyList.sort_by_key_reverse similarity_score
      (find_evidence question_text evidence_library threshold) in
  let answer_confidence := _generate_answer matched_evidence in
  {| question_id := q_id q;
     question := question_text;
     category := q_category q;
     answer := fst answer_confidence;
     evidence := firstn 5 matched_evidence;
     confidence := snd answer_confidence;
     gaps := _identify_gaps question_text matched_evidence |}.

Definition map_evidence_to_questions (questions : list Question)
    (evidence_library : list EvidenceExtractor.EvidenceItem) (threshold : Q)
    : list QuestionMapping :=
  map (map_question evidence_library threshold) questions.

End Mapper.

(** *** Loading the questionnaire *)

(** The value of a cell of the work sheet ([values_only=True]): [None], a
    string, or a value of another type (a number, a Boolean, a date) of
    which only the truth value is read. *)
Inductive Cell : Type :=
| CellNone
| CellStr (s : string)
| CellOther (truth : bool).

(** The truth value of a cell. *)
Definition cell_truth (cell : Cell) : bool :=
  match cell with
  | CellNone => false
  | CellStr s => negb (String.eqb s "")
  | CellOther truth => truth
  end.

(** [cell and isinstance(cell, str) and len(cell) > 20 and '?' in cell] *)
Definition is_question_cell (cell : Cell) : bool :=
  cell_truth cell
  && match cell with
     | CellStr s => (20 <? String.length s) && contains "?" s
     | _ => false
     end.

(** The inner loop: the first cell of the row that is a question. *)
Fixpoint first_question (row : list Cell) : option string :=
  match row with
  | [] => None
  | cell :: rest =>
      if is_question_cell cell
      then match cell with
           | CellStr s => Some s
           | _ => None
           end
      else first_question rest
  end.

(** The body of the loop over the rows for one row. *)
Definition load_row (row_idx : nat) (row : list Cell) : list Question :=
  if (match row with [] => true | _ :: _ => false end)
     || negb (existsb cell_truth row)
  then []
  else
    match first_question row with
    | Some question_text =>
        if negb (String.eqb question_text "")
        then [ {| q_id := ("Q" ++ str_of_nat row_idx)%string;
                  q_question := question_text;
                  q_category := "General";
                  q_row_num := row_idx |} ]
        else []
    | None => []
    end.

(** [load_questionnaire], given what the workbook holds: [None] when the
    workbook cannot be opened or has no sheet to read, otherwise the rows of
    the chosen sheet from the second row on. *)
Definition load_questionnaire (sheet : option (list (list Cell)))
    : list Question :=
  match sheet with
  | None => []
  | Some rows =>
      flat_map (fun ir => load_row (fst ir) (snd ir))
               (combine (seq 2 (List.length rows)) rows)
  end.

(** The default value of [threshold]. *)
Definition default_threshold : Q := 3 # 10.

(** The similarity score of the first element of a mapping's evidence. *)
Definition top_score (m : QuestionMapping) : option Q :=
  match evidence m with
  | [] => None
  | top :: _ => Some (similarity_score top)
  end.

(** The order HIGH > MEDIUM > LOW > NOT_FOUND on confidences. *)
Definition confidence_rank (c : string) : nat :=
  if String.eqb c "HIGH" then 3
  else if String.eqb c "MEDIUM" then 2
  else if String.eqb c "LOW" then 1
  else 0.

End QuestionnaireMapper.

(** ** risk_assessor.py *)

Module RiskAssessor.

Import PyStr.

(** An element of [question_mappings], as the mapper produces it.  Every
    key is present: [assess] raises [KeyError] on a mapping without
    ['confidence'] or ['question'], and a mapping without ['gaps'] is treated
    as one with no gaps. *)
Definition QuestionMapping : Type := QuestionnaireMapper.QuestionMapping.

Definition RISK_CATEGORIES : list (string * list string) :=
  [ ("data_protection",
     ["encryption"; "data protection"; "privacy"; "gdpr"; "confidentiality"]);
    ("access_control",
     ["authentication"; "authorization"; "access control"; "mfa"; "password"]);
    ("monitoring",
     ["logging"; "monitoring"; "audit"; "siem"; "detection"]);
    ("incident_response",
     ["incident"; "response"; "breach"; "disaster recovery"; "backup"]);
    ("compliance",
     ["compliance"; "certification"; "soc 2"; "iso 27001"; "audit"]);
    ("vulnerability_management",
     ["vulnerability"; "patch"; "scanning"; "penetration test"]);
    ("vendor_management",
     ["vendor"; "third party"; "supplier"; "subprocessor"]) ].

Module Risk.
Record t : Type := {
  category : string;
  severity : string;
  description : string;
  affected_questions : list string;
  gaps : list string
}.
End Risk.

Module Threat.
Record t : Type := {
  category : string;
  severity : string;
  description : string;
  affected_questions : nat;
  evidence_gaps : list string;
  potential_impact : string
}.
End Threat.

Module Surface.
Record t : Type := {
  surface : string;
  description : string;
  exposure_level : string
}.
End Surface.

Module Mitigation.
Record t : Type := {
  threat_category : string;
  priority : string;
  action : string;
  specific_controls : list string
}.
End Mitigation.

Module ThreatModel.
Record t : Type := {
  framework : string;
  threats : list Threat.t;
  attack_surfaces : list Surface.t;
  mitigations_needed : list Mitigation.t
}.
End ThreatModel.

Module Recommendation.
Record t : Type := {
  priority : string;
  category : string;
  action : string;
  rationale : string;
  questions_to_followup : list string
}.
End Recommendation.

Module RiskScore.
Record t : Type := {
  score : Q;
  level : string
}.
End RiskScore.

Module Summary.
Record t : Type := {
  total_questions : nat;
  answered_high_confidence : nat;
  answered_medium_confidence : nat;
  answered_low_confidence : nat;
  insufficient_evidence : nat;
  critical_risks : nat;
  medium_risks : nat;
  low_risks : nat
}.
End Summary.

Module Assessment.
Record t : Type := {
  overall_risk : string;
  risk_score : Q;
  confidence_distribution : list (string * nat);
  risks : list Risk.t;
  threat_model : ThreatModel.t;
  recommendations : list Recommendation.t;
  public_incidents_found : nat;
  summary : Summary.t
}.
End Assessment.

(** The web search results, as far as [assess] reads them: an incident is a
    dictionary of strings. *)
Record WebSearchResults : Type := {
  controls : list (list (string * string));
  incidents : list (list (string * string))
}.

(** [float(n)] *)
Definition float_of_nat (n : nat) : float :=
  PrimFloat.of_uint63 (Uint63.of_Z (Z.of_nat n)).

(** [k > n * c] for two lengths [k] and [n] and a float literal [c]: the
    product is rounded to binary64, and the comparison of the integer with it
    is exact.  (Lengths are below 2^53, so [float(n)] is [n].) *)
Definition gt_times (k n : nat) (c : float) : bool :=
  PrimFloat.ltb (PrimFloat.mul (float_of_nat n) c) (float_of_nat k).

(** [round(x, 1)] on the exact value: the nearest multiple of one tenth.
    On a value half-way between two of them Python decides by the binary64
    value it holds; here the even one is taken, and the properties below
    hold for either choice. *)
Definition round_half_even (x : Q) : Z :=
  let f := Qfloor x in
  match Qcompare (x - inject_Z f) (1 # 2) with
  | Lt => f
  | Gt => (f + 1)%Z
  | Eq => if Z.even f then f else (f + 1)%Z
  end.

Definition round1 (x : Q) : Q := (round_half_even (x * 10) # 10)%Q.

Definition _analyze_confidence (mappings : list QuestionMapping)
    : list (string * nat) :=
  fold_left
    (fun stats mapping =>
       let conf := QuestionnaireMapper.confidence mapping in
       PyDict.set stats conf (PyDict.get_default stats conf 0 + 1))
    mappings [].

(** [any(kw in question_lower for kw in keywords)] *)
Definition in_category (keywords : list string) (mapping : QuestionMapping)
    : bool :=
  let question_lower := lower (QuestionnaireMapper.question mapping) in
  existsb (fun kw => contains kw question_lower) keywords.

(** [m['confidence'] in ['LOW', 'NOT_FOUND']] *)
Definition low_conf (m : QuestionMapping) : bool :=
  mem (QuestionnaireMapper.confidence m) ["LOW"; "NOT_FOUND"].

(** [severity_order.get(severity, 3)] *)
Definition severity_order (severity : string) : nat :=
  PyDict.get_default [("HIGH", 0); ("MEDIUM", 1); ("LOW", 2)] severity 3.

Definition score_map : list (string * nat) :=
  [("HIGH", 3); ("MEDIUM", 2); ("LOW", 1); ("NOT_FOUND", 0)].

Definition _calculate_risk_score (mappings : list QuestionMapping)
    : RiskScore.t :=
  let total := List.length mappings in
  if total =? 0 then {| RiskScore.score := 0; RiskScore.level := "UNKNOWN" |}
  else
    let total_score :=
      list_sum
        (map (fun m =>
                PyDict.get_default score_map (QuestionnaireMapper.confidence m) 0)
             mappings) in
    let normalized_score :=
      (inject_Z (Z.of_nat total_score) / inject_Z (Z.of_nat (total * 3))
       * 100)%Q in
    let level :=
      if Qle_bool 70 normalized_score then "LOW RISK"
      else if Qle_bool 50 normalized_score then "MEDIUM RISK"
      else if Qle_bool 30 normalized_score then "HIGH RISK"
      else "CRITICAL RISK" in
    {| RiskScore.score := round1 normalized_score; RiskScore.level := level |}.

Definition _get_threat_impact (stride_category severity : string) : string :=
  let impacts :=
    [ ("Spoofing", "Unauthorized access through identity impersonation");
      ("Tampering", "Unauthorized modification of data or configurations");
      ("Repudiation",
       "Inability to prove actions occurred or track accountability");
      ("Information Disclosure", "Unauthorized access to sensitive data");
      ("Denial of Service", "Service disruption affecting availability");
      ("Elevation of Privilege", "Unauthorized access to elevated permissions");
      ("Historical Incident",
       "Repeated security failures based on past incidents") ] in
  let base_impact :=
    PyDict.get_default impacts stride_category "Potential security impact" in
  if String.eqb severity "HIGH"
  then (base_impact ++ " - Critical impact to business operations")%string
  else if String.eqb severity "MEDIUM"
  then (base_impact ++ " - Moderate impact requiring attention")%string
  else (base_impact ++ " - Low impact but requires monitoring")%string.

Definition _suggest_controls (threat_category : string) : list string :=
  let controls :=
    [ ("Spoofing",
       ["Multi-factor authentication"; "Strong password policies";
        "Identity verification"]);
      ("Tampering",
       ["Data integrity checks"; "Code signing"; "Change management"]);
      ("Repudiation",
       ["Comprehensive audit logging"; "Digital signatures"; "Time stamping"]);
      ("Information Disclosure",
       ["Encryption at rest and in transit"; "Access controls";
        "Data classification"]);
      ("Denial of Service",
       ["Rate limiting"; "DDoS protection"; "Redundancy and failover"]);
      ("Elevation of Privilege",
       ["Least privilege access"; "Role-based access control";
        "Regular access reviews"]);
      ("Historical Incident",
       ["Incident response plan review"; "Security control validation";
        "Third-party audit"]) ] in
  PyDict.get_default controls threat_category
    ["General security hardening"; "Regular security assessments"].

Definition stride_mapping : list (string * string) :=
  [ ("Data Protection", "Information Disclosure");
    ("Access Control", "Elevation of Privilege");
    ("Monitoring", "Repudiation");
    ("Incident Response", "Denial of Service");
    ("Compliance", "Tampering");
    ("Vulnerability Management", "Spoofing");
    ("Vendor Management", "Elevation of Privilege") ].

(** [any(term in s.lower() for term in terms)] *)
Definition any_term (terms : list string) (s : string) : bool :=
  existsb (fun term => contains term (lower s)) terms.

(** [self.vendor_metadata.get(key)], read as a condition and as a value: the
    value when the key is present with a string that is not empty. *)
Definition metadata_field (vendor_metadata : list (string * string))
    (key : string) : option string :=
  match PyDict.get vendor_metadata key with
  | Some v => if String.eqb v "" then None else Some v
  | None => None
  end.

Definition _analyze_attack_surfaces (vendor_metadata : list (string * string))
    : list Surface.t :=
  (match metadata_field vendor_metadata "data_stored" with
   | Some data_types =>
       [ {| Surface.surface := "Data Storage";
            Surface.description :=
              ("Vendor stores: " ++ slice_to 100 data_types ++ "...")%string;
            Surface.exposure_level :=
              if any_term ["pii"; "credential"; "password"; "secret"] data_types
              then "HIGH" else "MEDIUM" |} ]
   | None => []
   end)
  ++ (match metadata_field vendor_metadata "integrations" with
      | Some integrations =>
          [ {| Surface.surface := "System Integration";
               Surface.description :=
                 ("Integration points: " ++ slice_to 100 integrations ++ "...")%string;
               Surface.exposure_level :=
                 if any_term ["production"; "database"; "api"] integrations
                 then "HIGH" else "MEDIUM" |} ]
      | None => []
      end)
  ++ (match metadata_field vendor_metadata "services" with
      | Some services =>
          [ {| Surface.surface := "Service Access";
               Surface.description :=
                 ("Services provided: " ++ slice_to 100 services ++ "...")%string;
               Surface.exposure_level := "MEDIUM" |} ]
      | None => []
      end).

(** What Python promises of [list(set(xs))]: it lists the elements of [xs],
    each once.  The order is the interpreter's. *)
Definition enumerates_set (list_of_set : list string -> list string) : Prop :=
  forall xs,
    NoDup (list_of_set xs) /\ forall x, In x (list_of_set xs) <-> In x xs.

Section Assess.

(** [list(set(xs))]: the distinct elements of [xs], in the order in which
    the interpreter iterates over the set. *)
Variable list_of_set : list string -> list string.

(** The body of the loop of [_identify_risks] for one category. *)
Definition category_risk (mappings : list QuestionMapping)
    (entry : string * list string) : list Risk.t :=
  let category := fst entry in
  let keywords := snd entry in
  let category_questions := filter (in_category keywords) mappings in
  match category_questions with
  | [] => []
  | _ :: _ =>
      let low_conf_count := List.length (filter low_conf category_questions) in
      if gt_times low_conf_count (List.length category_questions) 0.5
      then
        let severity :=
          if gt_times low_conf_count (List.length category_questions) 0.7
          then "HIGH" else "MEDIUM" in
        [ {| Risk.category := title (replace_char "_" " " category);
             Risk.severity := severity;
             Risk.description :=
               ("Insufficient evidence for " ++ str_of_nat low_conf_count
                ++ "/" ++ str_of_nat (List.length category_questions)
                ++ " " ++ replace_char "_" " " category ++ " controls")%string;
             Risk.affected_questions :=
               map QuestionnaireMapper.question_id
                   (filter low_conf category_questions);
             Risk.gaps :=
               list_of_set (flat_map QuestionnaireMapper.gaps category_questions)
          |} ]
      else []
  end.

Definition _identify_risks (mappings : list QuestionMapping) : list Risk.t :=
  PyList.sort_by_key (fun x => severity_order (Risk.severity x))
    (flat_map (category_risk mappings) RISK_CATEGORIES).

Definition risk_threat (risk : Risk.t) : Threat.t :=
  let stride_category :=
    PyDict.get_default stride_mapping (Risk.category risk)
      "Information Disclosure" in
  {| Threat.category := stride_category;
     Threat.severity := Risk.severity risk;
     Threat.description := Risk.description risk;
     Threat.affected_questions := List.length (Risk.affected_questions risk);
     Threat.evidence_gaps := firstn 3 (Risk.gaps risk);
     Threat.potential_impact :=
       _get_threat_impact stride_category (Risk.severity risk) |}.

Definition incident_threat (incident : list (string * string)) : Threat.t :=
  {| Threat.category := "Historical Incident";
     Threat.severity := "HIGH";
     Threat.description :=
       ("Past security incident: "
        ++ PyDict.get_default incident "title" "Unknown incident")%string;
     Threat.affected_questions := 0;
     Threat.evidence_gaps := [];
     Threat.potential_impact :=
       "Historical breach indicates potential vulnerabilities in security posture"
  |}.

Definition threat_mitigation (threat : Threat.t) : list Mitigation.t :=
  if mem (Threat.severity threat) ["HIGH"; "CRITICAL"]
  then
    [ {| Mitigation.threat_category := Threat.category threat;
         Mitigation.priority :=
           if String.eqb (Threat.severity threat) "HIGH"
           then "Critical" else "High";
         Mitigation.action :=
           ("Address " ++ Threat.category threat ++ " risks")%string;
         Mitigation.specific_controls :=
           _suggest_controls (Threat.category threat) |} ]
  else [].

(** [vendor_metadata] and [web_search_results] are the two attributes that
    [assess] stores before it calls this method. *)
Definition _generate_threat_model (vendor_metadata : list (string * string))
    (web_search_results : WebSearchResults)
    (mappings : list QuestionMapping) (risks : list Risk.t) : ThreatModel.t :=
  let threats :=
    map risk_threat risks
    ++ map incident_threat (firstn 5 (incidents web_search_results)) in
  {| ThreatModel.framework := "STRIDE";
     ThreatModel.threats := threats;
     ThreatModel.attack_surfaces :=
       match vendor_metadata with
       | [] => []
       | _ :: _ => _analyze_attack_surfaces vendor_metadata
       end;
     ThreatModel.mitigations_needed := flat_map threat_mitigation threats |}.

Definition risk_recommendation (risk : Risk.t) : list Recommendation.t :=
  if String.eqb (Risk.severity risk) "HIGH"
  then
    [ {| Recommendation.priority := "Critical";
         Recommendation.category := Risk.category risk;
         Recommendation.action :=
           ("Request additional documentation for " ++ Risk.category risk
            ++ " controls")%string;
         Recommendation.rationale := Risk.description risk;
         Recommendation.questions_to_followup :=
           firstn 5 (Risk.affected_questions risk) |} ]
  else [].

Definition _generate_recommendations (risks : list Risk.t)
    (mappings : list QuestionMapping) : list Recommendation.t :=
  let not_found_questions :=
    filter (fun m => String.eqb (QuestionnaireMapper.confidence m) "NOT_FOUND")
           mappings in
  flat_map risk_recommendation risks
  ++ (if 5 <? List.length not_found_questions
      then
        [ {| Recommendation.priority := "High";
             Recommendation.category := "Documentation";
             Recommendation.action :=
               "Request comprehensive security documentation package";
             Recommendation.rationale :=
               (str_of_nat (List.length not_found_questions)
                ++ " questions have no supporting evidence")%string;
             Recommendation.questions_to_followup :=
               map QuestionnaireMapper.question_id
                   (firstn 10 not_found_questions) |} ]
      else []).

(** [len([r for r in risks if r['severity'] == severity])] *)
Definition count_severity (severity : string) (risks : list Risk.t) : nat :=
  List.length (filter (fun r => String.eqb (Risk.severity r) severity) risks).

(** [assess]: an argument that is [None] stands for the empty dictionary. *)
Definition assess (question_mappings : list QuestionMapping)
    (vendor_metadata : option (list (string * string)))
    (web_search_results : option WebSearchResults) : Assessment.t :=
  let vendor_metadata :=
    match vendor_metadata with Some d => d | None => [] end in
  let web_search_results :=
    match web_search_results with
    | Some d => d
    | None => {| controls := []; incidents := [] |}
    end in
  let confidence_stats := _analyze_confidence question_mappings in
  let risks := _identify_risks question_mappings in
  let threat_model :=
    _generate_threat_model vendor_metadata web_search_results
      question_mappings risks in
  let recommendations := _generate_recommendations risks question_mappings in
  let risk_score := _calculate_risk_score question_mappings in
  let public_incidents_count := List.length (incidents web_search_results) in
  {| Assessment.overall_risk := RiskScore.level risk_score;
     Assessment.risk_score := RiskScore.score risk_score;
     Assessment.confidence_distribution := confidence_stats;
     Assessment.risks := risks;
     Assessment.threat_model := threat_model;
     Assessment.recommendations := recommendations;
     Assessment.public_incidents_found := public_incidents_count;
     Assessment.summary :=
       {| Summary.total_questions := List.length question_mappings;
          Summary.answered_high_confidence :=
            PyDict.get_default confidence_stats "HIGH" 0;
          Summary.answered_medium_confidence :=
            PyDict.get_default confidence_stats "MEDIUM" 0;
          Summary.answered_low_confidence :=
            PyDict.get_default confidence_stats "LOW" 0;
          Summary.insufficient_evidence :=
            PyDict.get_default confidence_stats "NOT_FOUND" 0;
          Summary.critical_risks := count_severity "HIGH" risks;
          Summary.medium_risks := count_severity "MEDIUM" risks;
          Summary.low_risks := count_severity "LOW" risks |} |}.

End Assess.

End RiskAssessor.

(** * Vocabulary of the properties and sample data *)

(** A word without white space. *)
Definition is_word (w : string) : Prop :=
  w <> EmptyString
  /\ forall c, In c (list_ascii_of_string w) -> PyStr.isspace c = false.

(** A boundary of the sentence pattern: a terminator followed by white
    space. *)
Fixpoint has_boundary (s : string) : bool :=
  match s with
  | EmptyString => false
  | String c s' =>
      (PyStr.is_terminator c && PyStr.starts_with_space s') || has_boundary s'
  end.

Section AssessorVocabulary.

Import QuestionnaireMapper RiskAssessor.

(** The number of mappings whose confidence is [k]. *)
Definition count_confidence (k : string) (ms : list QuestionMapping) : nat :=
  List.length (filter (fun m => String.eqb (confidence m) k) ms).

(** Two risks that differ at most in the order of their gaps. *)
Definition same_risk_up_to_gap_order (r1 r2 : Risk.t) : Prop :=
  Risk.category r1 = Risk.category r2
  /\ Risk.severity r1 = Risk.severity r2
  /\ Risk.description r1 = Risk.description r2
  /\ Risk.affected_questions r1 = Risk.affected_questions r2
  /\ Permutation (Risk.gaps r1) (Risk.gaps r2).

(** Two threats that differ at most in their evidence gaps. *)
Definition same_threat_up_to_gaps (t1 t2 : Threat.t) : Prop :=
  Threat.category t1 = Threat.category t2
  /\ Threat.severity t1 = Threat.severity t2
  /\ Threat.description t1 = Threat.description t2
  /\ Threat.affected_questions t1 = Threat.affected_questions t2
  /\ Threat.potential_impact t1 = Threat.potential_impact t2.

(** Below ninety questions the two binary64 comparisons agree with the
    comparisons of integers. *)
Definition thresholds_agree_below (bound : nat) : bool :=
  forallb
    (fun n =>
       forallb
         (fun low =>
            Bool.eqb (gt_times low n 0.5) (n <? 2 * low)
            && Bool.eqb (gt_times low n 0.7) (7 * n <? 10 * low))
         (seq 0 (S n)))
    (seq 0 bound).

(** The comparisons that the rational model makes, made in binary64 as
    Python makes them, for every ratio of small lengths: a lexical
    similarity [overlap / len] against [0.3], [0.4] and [0.6], and a
    normalized score [(total_score / (total * 3)) * 100] against [30], [50]
    and [70]. *)
Definition float_ratio (a b : nat) : float :=
  PrimFloat.div (float_of_nat a) (float_of_nat b).

Definition rational_ratio (a b : nat) : Q :=
  (inject_Z (Z.of_nat a) / inject_Z (Z.of_nat b))%Q.

Definition similarity_comparisons_agree_below (bound : nat) : bool :=
  forallb
    (fun len =>
       forallb
         (fun overlap =>
            let s := float_ratio overlap len in
            let q := rational_ratio overlap len in
            Bool.eqb (PrimFloat.ltb 0.6 s) (Qgt_bool q (6 # 10))
            && Bool.eqb (PrimFloat.ltb 0.4 s) (Qgt_bool q (4 # 10))
            && Bool.eqb (PrimFloat.ltb s 0.4) (Qlt_bool q (4 # 10))
            && Bool.eqb (PrimFloat.leb 0.3 s) (Qle_bool (3 # 10) q))
         (seq 0 (S len)))
    (seq 1 bound).

Definition level_comparisons_agree_below (bound : nat) : bool :=
  forallb
    (fun total =>
       forallb
         (fun total_score =>
            let x := PrimFloat.mul (float_ratio total_score (total * 3)) 100 in
            let q := (rational_ratio total_score (total * 3) * 100)%Q in
            Bool.eqb (PrimFloat.leb 70 x) (Qle_bool 70 q)
            && Bool.eqb (PrimFloat.leb 50 x) (Qle_bool 50 q)
            && Bool.eqb (PrimFloat.leb 30 x) (Qle_bool 30 q))
         (seq 0 (S (total * 3))))
    (seq 1 bound).

End AssessorVocabulary.

Section ExtractorVocabulary.

Import EvidenceExtractor.

(** The segments that yield an item: those whose trimmed form has at least
    20 characters and matches a keyword. *)
Definition yields_item (trimmed : string) : bool :=
  (20 <=? String.length trimmed)
  && match matched_keywords (PyStr.lower trimmed) with
     | [] => false
     | _ :: _ => true
     end.

End ExtractorVocabulary.

(** Sample data: one statement of a vendor document and three questions. *)
Definition sample_library : list EvidenceExtractor.EvidenceItem :=
  [ {| EvidenceExtractor.text := "The vendor does encrypt all data at rest";
       EvidenceExtractor.keywords := [];
       EvidenceExtractor.source := "policy.pdf (Page 1)";
       EvidenceExtractor.confidence := "low";
       EvidenceExtractor.type := "control_statement";
       EvidenceExtractor.row_data := None |} ].

Definition sample_question (id text : string) : QuestionnaireMapper.Question :=
  {| QuestionnaireMapper.q_id := id;
     QuestionnaireMapper.q_question := text;
     QuestionnaireMapper.q_category := "General";
     QuestionnaireMapper.q_row_num := 2 |}.

Definition question_strong : QuestionnaireMapper.Question :=
  sample_question "Q2" "Does the vendor encrypt data at rest?".
Definition question_partial : QuestionnaireMapper.Question :=
  sample_question "Q3" "Is customer data kept at the office?".
Definition question_unmatched : QuestionnaireMapper.Question :=
  sample_question "Q4" "Is there a disaster recovery plan?".

Definition sample_mapping (q : QuestionnaireMapper.Question)
    : QuestionnaireMapper.QuestionMapping :=
  QuestionnaireMapper.map_question None sample_library
    QuestionnaireMapper.default_threshold q.

(** Sample mappings for the risk assessor. *)
Definition mapping_of (id text conf : string) (g : list string)
    : QuestionnaireMapper.QuestionMapping :=
  {| QuestionnaireMapper.question_id := id;
     QuestionnaireMapper.question := text;
     QuestionnaireMapper.category := "General";
     QuestionnaireMapper.answer := "Insufficient Evidence";
     QuestionnaireMapper.evidence := [];
     QuestionnaireMapper.confidence := conf;
     QuestionnaireMapper.gaps := g |}.

Definition sample_mappings : list QuestionnaireMapper.QuestionMapping :=
  [ mapping_of "Q2" "Is the vendor insured?" "LOW"
      ["Evidence is weak or indirect";
       "Single source only - requires corroboration"];
    mapping_of "Q3" "Is data encrypted at rest?" "NOT_FOUND"
      ["No evidence found in vendor documentation";
       "Single source only - requires corroboration"];
    mapping_of "Q4" "Is there an office?" "NOT_FOUND"
      ["No evidence found in vendor documentation";
       "Single source only - requires corroboration"] ].

(** Two ways in which an interpreter may enumerate a set of strings. *)
Definition set_order_a (xs : list string) : list string := nodup string_dec xs.
Definition set_order_b (xs : list string) : list string :=
  rev (nodup string_dec xs).

(** Ninety questions of the vendor-management category, 63 of them with low
    confidence. *)
Definition ninety_vendor_questions
    : list QuestionnaireMapper.QuestionMapping :=
  repeat (mapping_of "Q" "Is the vendor insured?" "LOW" []) 63
  ++ repeat (mapping_of "Q" "Is the vendor insured?" "HIGH" []) 27.

(** A parsed document with one page and one table, the matches of the
    certification patterns in its page, and the library entry of its table
    row. *)
Definition sample_document : EvidenceExtractor.ParsedDocument :=
  {| EvidenceExtractor.doc_type := "pdf";
     EvidenceExtractor.filename := "policy.pdf";
     EvidenceExtractor.pages :=
       [ {| EvidenceExtractor.page_num := 1;
            EvidenceExtractor.page_text :=
              "We use TLS encryption for all data in transit. We follow GDPR."
         |} ];
     EvidenceExtractor.tables :=
       [ {| EvidenceExtractor.page := 1;
            EvidenceExtractor.table_index := 0;
            EvidenceExtractor.data :=
              [["Control"; "Status"]; ["Encryption"; "Implemented"]] |} ];
     EvidenceExtractor.sheets := [] |}.

Definition sample_finditer (pattern txt : string) : list (nat * nat) :=
  if String.eqb pattern "GDPR" then [(57, 61)] else [].

Definition sample_table_entry : EvidenceExtractor.EvidenceItem :=
  {| EvidenceExtractor.text := "Encryption Implemented";
     EvidenceExtractor.keywords := ["encryption"];
     EvidenceExtractor.source := "policy.pdf (Page 1, Table 0) (Row 1)";
     EvidenceExtractor.confidence := "high";
     EvidenceExtractor.type := "table_entry";
     EvidenceExtractor.row_data :=
       Some [("Control", "Encryption"); ("Status", "Implemented")] |}.

(** * Properties *)

(** ** The string primitives *)

Example split_example :
  PyStr.split "  Does the  vendor	encrypt data? "
  = ["Does"; "the"; "vendor"; "encrypt"; "data?"].
Proof. reflexivity. Qed.

Example lower_example : PyStr.lower "SOC 2 Type II" = "soc 2 type ii".
Proof. reflexivity. Qed.

Example strip_example : PyStr.strip "  a b  " = "a b".
Proof. reflexivity. Qed.

Example contains_example :
  PyStr.contains "soc 2" "our soc 2 report" = true
  /\ PyStr.contains "mfa" "multi-factor" = false.
Proof. split; reflexivity. Qed.

Example title_example :
  PyStr.title (PyStr.replace_char "_" " " "data_protection") = "Data Protection".
Proof. reflexivity. Qed.

Example re_split_example :
  PyStr.re_split_sentences "One. Two!  Three?x. v1.2 is out. "
  = ["One"; "Two"; "Three?x"; "v1.2 is out"; ""].
Proof. reflexivity. Qed.

Example re_split_corner_cases :
  PyStr.re_split_sentences "" = [""]
  /\ PyStr.re_split_sentences ". a" = [""; "a"]
  /\ PyStr.re_split_sentences "a. . b" = ["a"; ""; "b"]
  /\ PyStr.re_split_sentences "a.. b" = ["a."; "b"].
Proof. repeat split. Qed.

Lemma is_word_cons (c : ascii) (w : string) :
  PyStr.isspace c = false ->
  (w = EmptyString \/ is_word w) -> is_word (String c w).
Proof.
  intros Hc Hw. split; [discriminate|].
  intros c' [<-|H]; [exact Hc|].
  destruct Hw as [->|[_ Hw]]; [destruct H | apply Hw, H].
Qed.

(** [split] returns words: none is empty and none holds white space. *)
Lemma split_words (s : string) : Forall is_word (PyStr.split s).
Proof.
  induction s as [|c s IH]; simpl.
  - constructor.
  - destruct (PyStr.isspace c) eqn:Hc; [exact IH|].
    destruct s as [|c' s'].
    + constructor; [|constructor]. apply is_word_cons; auto.
    + destruct (PyStr.isspace c') eqn:Hc'.
      * constructor; [|exact IH]. apply is_word_cons; auto.
      * destruct (PyStr.split (String c' s')) as [|w ws]; simpl.
        -- constructor; [|constructor]. apply is_word_cons; auto.
        -- inversion IH; subst. constructor; [|assumption].
           apply is_word_cons; auto.
Qed.

(** A string of white space has no words, and a word is its own split. *)
Lemma split_spaces (s : string) :
  (forall c, In c (list_ascii_of_string s) -> PyStr.isspace c = true) ->
  PyStr.split s = [].
Proof.
  induction s as [|c s IH]; simpl; intros H.
  - reflexivity.
  - rewrite (H c (or_introl eq_refl)). apply IH. intros c' Hc'. apply H.
    right. exact Hc'.
Qed.

Lemma split_word (w : string) : is_word w -> PyStr.split w = [w].
Proof.
  induction w as [|c w IH]; intros [Hne Hw].
  - contradiction.
  - simpl. rewrite (Hw c (or_introl eq_refl)).
    destruct w as [|c' w']; [reflexivity|].
    rewrite (Hw c' (or_intror (or_introl eq_refl))).
    rewrite IH; [reflexivity|].
    split; [discriminate|]. intros x Hx. apply Hw. right. exact Hx.
Qed.

Lemma split_nonspace_nonempty (c : ascii) (s : string) :
  PyStr.isspace c = false -> PyStr.split (String c s) <> [].
Proof.
  intros Hc. simpl. rewrite Hc. destruct s as [|c' s']; [discriminate|].
  destruct (PyStr.isspace c'); [discriminate|].
  destruct (PyStr.split (String c' s')); discriminate.
Qed.

(** White space separates: the words of [a ++ c ++ b], for a white-space
    character [c], are the words of [a] followed by the words of [b]. *)
Lemma split_app_space (a b : string) (c : ascii) :
  PyStr.isspace c = true ->
  PyStr.split (a ++ String c b) = PyStr.split a ++ PyStr.split b.
Proof.
  intros Hc. induction a as [|x a IH].
  - simpl. rewrite Hc. reflexivity.
  - cbn [String.append]. cbn [PyStr.split].
    destruct (PyStr.isspace x) eqn:Hx; [exact IH|].
    destruct a as [|y a'].
    + cbn [String.append]. rewrite Hc. simpl in IH. rewrite Hc in IH.
      simpl. rewrite Hc. reflexivity.
    + cbn [String.append] in *. destruct (PyStr.isspace y) eqn:Hy.
      * rewrite IH. reflexivity.
      * rewrite IH.
        pose proof (split_nonspace_nonempty y a' Hy) as Hne.
        destruct (PyStr.split (String y a')); [contradiction|reflexivity].
Qed.

Lemma terminator_not_space (c : ascii) :
  PyStr.is_terminator c = true -> PyStr.isspace c = false.
Proof.
  unfold PyStr.is_terminator. rewrite !orb_true_iff, !Ascii.eqb_eq.
  intros [[->| ->]| ->]; reflexivity.
Qed.

(** A text without boundary is one segment. *)
Lemma re_split_no_boundary (s : string) :
  has_boundary s = false -> PyStr.re_split_from false s = [s].
Proof.
  induction s as [|c s IH]; simpl; intros H.
  - reflexivity.
  - apply orb_false_iff in H. destruct H as [H1 H2].
    rewrite H1, (IH H2). reflexivity.
Qed.

Lemma re_split_after_match (b : string) :
  PyStr.starts_with_space b = false ->
  PyStr.re_split_from true b = PyStr.re_split_from false b.
Proof.
  destruct b as [|c b]; simpl; intros H; [reflexivity|].
  rewrite H. reflexivity.
Qed.

Lemma re_split_skip_spaces (ws b : string) :
  (forall c, In c (list_ascii_of_string ws) -> PyStr.isspace c = true) ->
  PyStr.starts_with_space b = false ->
  PyStr.re_split_from true (ws ++ b) = PyStr.re_split_from false b.
Proof.
  intros Hws Hb. induction ws as [|c ws IH].
  - apply re_split_after_match, Hb.
  - cbn [String.append PyStr.re_split_from].
    rewrite (Hws c (or_introl eq_refl)). simpl. apply IH.
    intros c' Hc'. apply Hws. right. exact Hc'.
Qed.

Lemma starts_with_space_app (a : string) (t : ascii) (r : string) :
  PyStr.starts_with_space (a ++ String t r)
  = PyStr.starts_with_space (a ++ String t EmptyString).
Proof. destruct a; reflexivity. Qed.

(** The first boundary ends the first segment: with [a] and its terminator
    [t] free of boundaries, [ws] a non-empty run of white space and [b] not
    starting with white space, the segments of [a ++ t ++ ws ++ b] are [a]
    and the segments of [b]. *)
Lemma re_split_first_boundary (a ws b : string) (t : ascii) :
  has_boundary (a ++ String t EmptyString) = false ->
  PyStr.is_terminator t = true ->
  ws <> EmptyString ->
  (forall c, In c (list_ascii_of_string ws) -> PyStr.isspace c = true) ->
  PyStr.starts_with_space b = false ->
  PyStr.re_split_sentences (a ++ String t (ws ++ b))
  = a :: PyStr.re_split_sentences b.
Proof.
  unfold PyStr.re_split_sentences. intros Ha Ht Hne Hws Hb.
  induction a as [|x a IH].
  - cbn [String.append PyStr.re_split_from]. rewrite Ht. simpl.
    destruct ws as [|w ws']; [contradiction|].
    cbn [String.append PyStr.starts_with_space].
    rewrite (Hws w (or_introl eq_refl)).
    rewrite <- (re_split_skip_spaces (String w ws') b Hws Hb). reflexivity.
  - cbn [String.append has_boundary] in Ha. apply orb_false_iff in Ha.
    destruct Ha as [Ha1 Ha2].
    cbn [String.append PyStr.re_split_from]. simpl andb.
    rewrite starts_with_space_app, Ha1, (IH Ha2). reflexivity.
Qed.

(** [strip] removes the white space around a text that neither starts nor
    ends with white space, and leaves nothing of a run of white space. *)
Lemma lstrip_app (ws b : string) :
  (forall c, In c (list_ascii_of_string ws) -> PyStr.isspace c = true) ->
  PyStr.starts_with_space b = false ->
  PyStr.lstrip (ws ++ b) = b.
Proof.
  intros Hws Hb. induction ws as [|c ws IH].
  - destruct b as [|c b]; [reflexivity|]. simpl in *. rewrite Hb. reflexivity.
  - simpl. rewrite (Hws c (or_introl eq_refl)). apply IH.
    intros c' Hc'. apply Hws. right. exact Hc'.
Qed.

Lemma rstrip_spaces (ws : string) :
  (forall c, In c (list_ascii_of_string ws) -> PyStr.isspace c = true) ->
  PyStr.rstrip ws = EmptyString.
Proof.
  induction ws as [|c ws IH]; simpl; intros H; [reflexivity|].
  rewrite IH, (H c (or_introl eq_refl)); [reflexivity|].
  intros c' Hc'. apply H. right. exact Hc'.
Qed.

Lemma rstrip_app (a ws : string) (c : ascii) :
  PyStr.isspace c = false ->
  (forall x, In x (list_ascii_of_string ws) -> PyStr.isspace x = true) ->
  PyStr.rstrip (a ++ String c ws) = (a ++ String c EmptyString)%string.
Proof.
  intros Hc Hws. induction a as [|x a IH].
  - simpl. rewrite (rstrip_spaces ws Hws), Hc. reflexivity.
  - cbn [String.append PyStr.rstrip]. rewrite IH.
    destruct a; reflexivity.
Qed.

Lemma strip_app (ws1 a ws2 : string) (c : ascii) :
  (forall x, In x (list_ascii_of_string ws1) -> PyStr.isspace x = true) ->
  (forall x, In x (list_ascii_of_string ws2) -> PyStr.isspace x = true) ->
  PyStr.starts_with_space (a ++ String c EmptyString) = false ->
  PyStr.isspace c = false ->
  PyStr.strip (ws1 ++ (a ++ String c ws2))
  = (a ++ String c EmptyString)%string.
Proof.
  intros H1 H2 Ha Hc. unfold PyStr.strip.
  rewrite lstrip_app; [apply rstrip_app; assumption | assumption |].
  rewrite starts_with_space_app. exact Ha.
Qed.

Lemma strip_spaces (ws : string) :
  (forall c, In c (list_ascii_of_string ws) -> PyStr.isspace c = true) ->
  PyStr.strip ws = EmptyString.
Proof.
  intros H. unfold PyStr.strip.
  replace ws with (ws ++ EmptyString)%string.
  - rewrite lstrip_app; auto.
  - clear H. induction ws as [|c ws IH]; simpl; congruence.
Qed.

(** ** Binary64 and the rational model *)

(** For up to 100 question tokens and up to 100 questions, every comparison
    of the mapper and of the score level has the same outcome in binary64
    as in the rational model. *)
Lemma similarity_comparisons_agree :
  similarity_comparisons_agree_below 101 = true.
Proof. vm_compute. reflexivity. Qed.

Lemma level_comparisons_agree : level_comparisons_agree_below 101 = true.
Proof. vm_compute. reflexivity. Qed.

(** ** The stable sort *)

Section SortFacts.
Context {A : Type}.
Variable before : A -> A -> bool.

Lemma insert_perm (x : A) (l : list A) :
  Permutation (PyList.insert before x l) (x :: l).
Proof.
  induction l as [|y l IH]; simpl.
  - apply Permutation_refl.
  - destruct (before x y).
    + apply Permutation_refl.
    + eapply perm_trans.
      * apply perm_skip, IH.
      * apply perm_swap.
Qed.

Lemma sort_perm (l : list A) : Permutation (PyList.sort before l) l.
Proof.
  induction l as [|x l IH]; simpl.
  - apply perm_nil.
  - eapply perm_trans.
    + apply insert_perm.
    + apply perm_skip, IH.
Qed.

Lemma in_sort (x : A) (l : list A) : In x (PyList.sort before l) <-> In x l.
Proof.
  split; apply Permutation_in.
  - apply sort_perm.
  - apply Permutation_sym, sort_perm.
Qed.

Lemma sort_nil_iff (l : list A) : PyList.sort before l = [] <-> l = [].
Proof.
  split; intros H.
  - apply Permutation_nil. rewrite <- H. apply sort_perm.
  - subst l. reflexivity.
Qed.

Hypothesis before_total : forall x y, before x y = true \/ before y x = true.
Hypothesis before_trans :
  forall x y z, before x y = true -> before y z = true -> before x z = true.

Lemma insert_sorted (x : A) (l : list A) :
  StronglySorted (fun a b => before a b = true) l ->
  StronglySorted (fun a b => before a b = true) (PyList.insert before x l).
Proof.
  induction 1 as [|y l Hl IH Hy]; simpl.
  - constructor; [constructor | constructor].
  - destruct (before x y) eqn:E.
    + constructor.
      * constructor; assumption.
      * constructor; [assumption|].
        rewrite Forall_forall in *. intros z Hz. eauto.
    + constructor; [assumption|].
      rewrite Forall_forall in *. intros z Hz.
      apply (Permutation_in _ (insert_perm x l)) in Hz.
      destruct Hz as [<-|Hz]; [|auto].
      destruct (before_total x y) as [H|H]; congruence.
Qed.

Lemma sort_sorted (l : list A) :
  StronglySorted (fun a b => before a b = true) (PyList.sort before l).
Proof.
  induction l as [|x l IH]; simpl.
  - constructor.
  - apply insert_sorted, IH.
Qed.

(** The first element of the sorted list may stay in front of every element
    of the list. *)
Lemma sort_head (l : list A) (top : A) (rest : list A) :
  PyList.sort before l = top :: rest ->
  In top l /\ forall e, In e l -> before top e = true.
Proof.
  intros H. split.
  - apply in_sort. rewrite H. left. reflexivity.
  - intros e He. apply in_sort in He. rewrite H in He.
    pose proof (sort_sorted l) as S. rewrite H in S.
    apply StronglySorted_inv in S. destruct S as [_ S].
    destruct He as [<-|He].
    + destruct (before_total top top); assumption.
    + rewrite Forall_forall in S. auto.
Qed.

End SortFacts.

(** Sorting two lists that are related element by element, with orders that
    agree on related elements, gives related lists. *)
Lemma sort_Forall2 {A B : Type} (R : A -> B -> Prop)
    (beforeA : A -> A -> bool) (beforeB : B -> B -> bool) :
  (forall a a' b b', R a b -> R a' b' -> beforeA a a' = beforeB b b') ->
  forall l1 l2, Forall2 R l1 l2 ->
  Forall2 R (PyList.sort beforeA l1) (PyList.sort beforeB l2).
Proof.
  intros Hb.
  assert (Hins : forall a b l1 l2, R a b -> Forall2 R l1 l2 ->
            Forall2 R (PyList.insert beforeA a l1) (PyList.insert beforeB b l2)).
  { intros a b l1 l2 Hab H. induction H as [|a' b' l1 l2 Hab' H IH]; simpl.
    - constructor; [assumption | constructor].
    - rewrite (Hb a a' b b' Hab Hab'). destruct (beforeB b b').
      + constructor; [assumption|]. constructor; assumption.
      + constructor; assumption. }
  induction 1; simpl.
  - constructor.
  - apply Hins; assumption.
Qed.

(** ** Comparisons of scores *)

Lemma Qgt_bool_iff (a b : Q) :
  QuestionnaireMapper.Qgt_bool a b = true <-> (b < a)%Q.
Proof.
  unfold QuestionnaireMapper.Qgt_bool. rewrite negb_true_iff.
  split; intros H.
  - apply Qnot_le_lt. intros Hle. apply Qle_bool_iff in Hle. congruence.
  - destruct (Qle_bool a b) eqn:E; [|reflexivity].
    apply Qle_bool_iff in E. exfalso. apply (Qlt_not_le _ _ H E).
Qed.

Lemma Qgt_bool_false_iff (a b : Q) :
  QuestionnaireMapper.Qgt_bool a b = false <-> (a <= b)%Q.
Proof.
  unfold QuestionnaireMapper.Qgt_bool. rewrite negb_false_iff.
  apply Qle_bool_iff.
Qed.

Lemma Qle_bool_false_iff (a b : Q) : Qle_bool a b = false <-> (b < a)%Q.
Proof.
  rewrite <- Qgt_bool_iff. unfold QuestionnaireMapper.Qgt_bool.
  rewrite negb_true_iff. reflexivity.
Qed.

(** ** The question mapper *)

Section MapperFacts.

Import QuestionnaireMapper.

Variable model : option (string -> string -> option Q).

(** The three tiers of [_generate_answer], read off the score of the first
    element. *)
Lemma generate_answer_tiers (top : MatchedEvidence) (rest : list MatchedEvidence) :
  let s := similarity_score top in
  ((6 # 10 < s)%Q ->
     _generate_answer (top :: rest)
     = (("Yes - " ++ PyStr.slice_to 200 (evidence_text top) ++ "...")%string, "HIGH"))
  /\ ((4 # 10 < s)%Q /\ (s <= 6 # 10)%Q ->
     _generate_answer (top :: rest)
     = ("Partially Addressed - See evidence", "MEDIUM"))
  /\ ((s <= 4 # 10)%Q ->
     _generate_answer (top :: rest) = ("Insufficient Evidence", "LOW")).
Proof.
  intros s. unfold _generate_answer. fold s.
  repeat split.
  - intros H. apply Qgt_bool_iff in H. rewrite H. reflexivity.
  - intros [H1 H2]. apply Qgt_bool_iff in H1. apply Qgt_bool_false_iff in H2.
    rewrite H2, H1. reflexivity.
  - intros H.
    assert (H6 : (s <= 6 # 10)%Q).
    { eapply Qle_trans; [exact H|]. unfold Qle. simpl. lia. }
    apply Qgt_bool_false_iff in H, H6. rewrite H6, H. reflexivity.
Qed.

Lemma score_before_total (x y : MatchedEvidence) :
  Qle_bool (similarity_score y) (similarity_score x) = true
  \/ Qle_bool (similarity_score x) (similarity_score y) = true.
Proof.
  destruct (Qlt_le_dec (similarity_score x) (similarity_score y)) as [H|H].
  - right. apply Qle_bool_iff, Qlt_le_weak, H.
  - left. apply Qle_bool_iff, H.
Qed.

Lemma score_before_trans (x y z : MatchedEvidence) :
  Qle_bool (similarity_score y) (similarity_score x) = true ->
  Qle_bool (similarity_score z) (similarity_score y) = true ->
  Qle_bool (similarity_score z) (similarity_score x) = true.
Proof.
  rewrite !Qle_bool_iff. intros H1 H2. eapply Qle_trans; eassumption.
Qed.

(** The sorted evidence starts with an element of greatest score. *)
Lemma sorted_evidence_head (l : list MatchedEvidence) top rest :
  PyList.sort_by_key_reverse similarity_score l = top :: rest ->
  In top l
  /\ forall e, In e l -> (similarity_score e <= similarity_score top)%Q.
Proof.
  intros H. unfold PyList.sort_by_key_reverse in H.
  apply sort_head in H.
  - destruct H as [H1 H2]. split; [assumption|].
    intros e He. apply Qle_bool_iff, H2, He.
  - intros x y. apply score_before_total.
  - intros x y z. apply score_before_trans.
Qed.

(** Every retained element reaches the threshold and comes from the library. *)
Lemma in_find_evidence (q : string) library (threshold : Q) (e : MatchedEvidence) :
  In e (find_evidence model q library threshold) <->
  exists ev, In ev library
    /\ (threshold <= calculate_similarity model q (EvidenceExtractor.text ev))%Q
    /\ e = {| evidence_text := EvidenceExtractor.text ev;
              source := EvidenceExtractor.source ev;
              keywords := EvidenceExtractor.keywords ev;
              similarity_score :=
                calculate_similarity model q (EvidenceExtractor.text ev);
              evidence_type := EvidenceExtractor.type ev |}.
Proof.
  unfold find_evidence. rewrite in_flat_map. split.
  - intros [ev [Hev He]]. exists ev. split; [assumption|].
    destruct (Qle_bool threshold
                (calculate_similarity model q (EvidenceExtractor.text ev))) eqn:E.
    + apply Qle_bool_iff in E. destruct He as [<-|[]]. split; [assumption|reflexivity].
    + destruct He.
  - intros [ev [Hev [Hle ->]]]. exists ev. split; [assumption|].
    apply Qle_bool_iff in Hle. rewrite Hle. left. reflexivity.
Qed.

Lemma find_evidence_nil_iff (q : string) library (threshold : Q) :
  find_evidence model q library threshold = [] <->
  Forall (fun ev =>
            (calculate_similarity model q (EvidenceExtractor.text ev) < threshold)%Q)
         library.
Proof.
  unfold find_evidence. induction library as [|ev lib IH]; simpl.
  - split; intros; [constructor | reflexivity].
  - destruct (Qle_bool threshold
                (calculate_similarity model q (EvidenceExtractor.text ev))) eqn:E.
    + split; [discriminate|]. intros H. inversion H as [|? ? Hlt _]; subst.
      apply Qle_bool_iff in E. exfalso. apply (Qlt_not_le _ _ Hlt E).
    + simpl. rewrite IH. apply Qle_bool_false_iff in E. split; intros H.
      * constructor; assumption.
      * inversion H; assumption.
Qed.

(** What [map_evidence_to_questions] puts into a mapping. *)
Lemma in_map_evidence_to_questions questions library threshold m :
  In m (map_evidence_to_questions model questions library threshold) ->
  let sorted :=
    PyList.sort_by_key_reverse similarity_score
      (find_evidence model (question m) library threshold) in
  evidence m = firstn 5 sorted
  /\ (answer m, confidence m) = _generate_answer sorted
  /\ gaps m = _identify_gaps (question m) sorted.
Proof.
  unfold map_evidence_to_questions. rewrite in_map_iff.
  intros [q [<- _]]. simpl.
  repeat split. symmetry. apply surjective_pairing.
Qed.

End MapperFacts.

Section MapperClaims.

Import QuestionnaireMapper.

(** C1: the (answer, confidence) pair of every mapping follows from the top
    similarity score [s] of the retained evidence.  With nothing retained it
    is ("Insufficient Evidence", NOT_FOUND).  Otherwise the first element of
    the mapping's evidence is a retained element of greatest score [s], and
    [s > 0.6] gives "Yes - " + the first 200 characters of its text + "..."
    with HIGH, [0.4 < s <= 0.6] gives ("Partially Addressed - See evidence",
    MEDIUM), and [s <= 0.4] gives ("Insufficient Evidence", LOW). *)
Theorem C1_answer_confidence_from_top_score :
  forall model questions library threshold m,
    In m (map_evidence_to_questions model questions library threshold) ->
    let retained := find_evidence model (question m) library threshold in
    (retained = [] ->
       evidence m = []
       /\ answer m = "Insufficient Evidence" /\ confidence m = "NOT_FOUND")
    /\ (retained <> [] ->
        exists top rest,
          evidence m = top :: rest
          /\ In top retained
          /\ (forall e, In e retained ->
                (similarity_score e <= similarity_score top)%Q)
          /\ ((6 # 10 < similarity_score top)%Q ->
                answer m
                = ("Yes - " ++ PyStr.slice_to 200 (evidence_text top) ++ "...")%string
                /\ confidence m = "HIGH")
          /\ ((4 # 10 < similarity_score top)%Q
              /\ (similarity_score top <= 6 # 10)%Q ->
                answer m = "Partially Addressed - See evidence"
                /\ confidence m = "MEDIUM")
          /\ ((similarity_score top <= 4 # 10)%Q ->
                answer m = "Insufficient Evidence" /\ confidence m = "LOW")).
Proof.
  intros model questions library threshold m Hm retained.
  apply in_map_evidence_to_questions in Hm. fold retained in Hm.
  destruct Hm as [Hev [Hac _]].
  split.
  - intros Hnil. rewrite Hnil in Hev, Hac. simpl in Hev, Hac.
    inversion Hac. auto.
  - intros Hne.
    destruct (PyList.sort_by_key_reverse similarity_score retained)
      as [|top rest] eqn:Hs.
    + apply sort_nil_iff in Hs. contradiction.
    + exists top, (firstn 4 rest).
      destruct (sorted_evidence_head _ _ _ Hs) as [Hin Hmax].
      destruct (generate_answer_tiers top rest) as [Hhigh [Hmed Hlow]].
      assert (Hpair : forall a c,
                _generate_answer (top :: rest) = (a, c) ->
                answer m = a /\ confidence m = c).
      { intros a c E. rewrite E in Hac. inversion Hac. auto. }
      split; [apply Hev|].
      split; [exact Hin|].
      split; [exact Hmax|].
      split; [|split]; intros H; apply Hpair; auto.
Qed.

Lemma C1_answer_confidence_witness :
  In (sample_mapping question_strong)
     (map_evidence_to_questions None [question_strong] sample_library
        default_threshold)
  /\ answer (sample_mapping question_strong)
     = "Yes - The vendor does encrypt all data at rest..."
  /\ confidence (sample_mapping question_strong) = "HIGH".
Proof.
  pose proof (C1_answer_confidence_from_top_score None [question_strong]
                sample_library default_threshold
                (sample_mapping question_strong) (or_introl eq_refl))
    as [_ H].
  split; [left; reflexivity|].
  destruct H as (top & rest & Hev & _ & _ & Hhigh & _).
  { vm_compute. discriminate. }
  vm_compute in Hev. injection Hev as <- _.
  apply Hhigh. vm_compute. reflexivity.
Defined.

(** The confidence of a mapping with evidence, as a function of the score of
    its first element. *)
Lemma confidence_rank_of_score (top : MatchedEvidence) (rest : list MatchedEvidence) :
  confidence_rank (snd (_generate_answer (top :: rest)))
  = if Qgt_bool (similarity_score top) (6 # 10) then 3
    else if Qgt_bool (similarity_score top) (4 # 10) then 2 else 1.
Proof.
  unfold _generate_answer.
  destruct (Qgt_bool (similarity_score top) (6 # 10));
    [|destruct (Qgt_bool (similarity_score top) (4 # 10))]; reflexivity.
Qed.

Lemma mapping_with_top_score model questions library threshold m s :
  In m (map_evidence_to_questions model questions library threshold) ->
  top_score m = Some s ->
  confidence_rank (confidence m)
  = if Qgt_bool s (6 # 10) then 3 else if Qgt_bool s (4 # 10) then 2 else 1.
Proof.
  intros Hm Hs. apply in_map_evidence_to_questions in Hm.
  destruct Hm as [Hev [Hac _]]. unfold top_score in Hs. rewrite Hev in Hs.
  destruct (PyList.sort_by_key_reverse similarity_score
              (find_evidence model (question m) library threshold))
    as [|top rest]; [discriminate|].
  simpl in Hs. injection Hs as <-.
  rewrite <- confidence_rank_of_score with (rest := rest).
  rewrite <- Hac. reflexivity.
Qed.

(** C4: of two mappings produced against the same library and threshold, the
    one whose top similarity score is strictly greater has a confidence of
    at least the other's rank, in the order HIGH > MEDIUM > LOW > NOT_FOUND. *)
Theorem C4_confidence_monotone_in_top_score :
  forall model questionsA questionsB library threshold A B sa sb,
    In A (map_evidence_to_questions model questionsA library threshold) ->
    In B (map_evidence_to_questions model questionsB library threshold) ->
    top_score A = Some sa ->
    top_score B = Some sb ->
    (sb < sa)%Q ->
    confidence_rank (confidence B) <= confidence_rank (confidence A).
Proof.
  intros model qsA qsB library threshold A B sa sb HA HB HsA HsB Hlt.
  rewrite (mapping_with_top_score _ _ _ _ _ _ HA HsA).
  rewrite (mapping_with_top_score _ _ _ _ _ _ HB HsB).
  destruct (Qgt_bool sb (6 # 10)) eqn:B6.
  - apply Qgt_bool_iff in B6.
    assert (A6 : Qgt_bool sa (6 # 10) = true).
    { apply Qgt_bool_iff. eapply Qlt_trans; eassumption. }
    rewrite A6. apply Nat.le_refl.
  - destruct (Qgt_bool sb (4 # 10)) eqn:B4.
    + apply Qgt_bool_iff in B4.
      assert (A4 : Qgt_bool sa (4 # 10) = true).
      { apply Qgt_bool_iff. eapply Qlt_trans; eassumption. }
      rewrite A4. destruct (Qgt_bool sa (6 # 10)); lia.
    + destruct (Qgt_bool sa (6 # 10)); [lia|].
      destruct (Qgt_bool sa (4 # 10)); lia.
Qed.

Lemma C4_confidence_monotone_witness :
  confidence_rank (confidence (sample_mapping question_partial))
  <= confidence_rank (confidence (sample_mapping question_strong)).
Proof.
  apply (C4_confidence_monotone_in_top_score None
           [question_strong; question_partial] [question_partial]
           sample_library default_threshold
           (sample_mapping question_strong) (sample_mapping question_partial)
           (6 # 7)%Q (3 # 7)%Q).
  - left. reflexivity.
  - left. reflexivity.
  - vm_compute. reflexivity.
  - vm_compute. reflexivity.
  - vm_compute. reflexivity.
Defined.

(** C5: a mapping has confidence NOT_FOUND exactly when its evidence is
    empty, which is exactly when no library item reached the similarity
    threshold; a mapping with evidence has confidence HIGH, MEDIUM or LOW. *)
Theorem C5_not_found_iff_no_evidence :
  forall model questions library threshold m,
    In m (map_evidence_to_questions model questions library threshold) ->
    (confidence m = "NOT_FOUND" <-> evidence m = [])
    /\ (evidence m = [] <->
        Forall (fun ev =>
                  (calculate_similarity model (question m)
                     (EvidenceExtractor.text ev) < threshold)%Q)
               library)
    /\ (evidence m <> [] ->
        confidence m = "HIGH" \/ confidence m = "MEDIUM" \/ confidence m = "LOW").
Proof.
  intros model questions library threshold m Hm.
  apply in_map_evidence_to_questions in Hm. destruct Hm as [Hev [Hac _]].
  rewrite <- find_evidence_nil_iff.
  set (retained := find_evidence model (question m) library threshold) in *.
  assert (Hc : confidence m
               = snd (_generate_answer
                        (PyList.sort_by_key_reverse similarity_score retained))).
  { rewrite <- Hac. reflexivity. }
  destruct (PyList.sort_by_key_reverse similarity_score retained)
    as [|top rest] eqn:Hs.
  - apply sort_nil_iff in Hs. simpl in Hev, Hc. rewrite Hev, Hc, Hs.
    split; [|split]; tauto.
  - assert (Hne : retained <> []).
    { intros H. rewrite H in Hs. discriminate. }
    simpl in Hev. rewrite Hev, Hc. unfold _generate_answer.
    destruct (Qgt_bool (similarity_score top) (6 # 10));
      [|destruct (Qgt_bool (similarity_score top) (4 # 10))]; simpl;
      (split; [split; discriminate|]);
      (split; [split; [discriminate | intros H; contradiction]|]);
      intros _; auto.
Qed.

Lemma C5_not_found_witness :
  confidence (sample_mapping question_unmatched) = "NOT_FOUND"
  /\ confidence (sample_mapping question_strong) <> "NOT_FOUND".
Proof.
  split.
  - apply (C5_not_found_iff_no_evidence None [question_unmatched]
             sample_library default_threshold
             (sample_mapping question_unmatched) (or_introl eq_refl)).
    vm_compute. reflexivity.
  - intros H.
    apply (C5_not_found_iff_no_evidence None [question_strong]
             sample_library default_threshold
             (sample_mapping question_strong) (or_introl eq_refl)) in H.
    vm_compute in H. discriminate H.
Defined.

Lemma StronglySorted_app_inv {A : Type} (R : A -> A -> Prop) (l1 l2 : list A) :
  StronglySorted R (l1 ++ l2) ->
  StronglySorted R l1
  /\ forall x y, In x l1 -> In y l2 -> R x y.
Proof.
  induction l1 as [|a l1 IH]; simpl; intros H.
  - split; [constructor | intros x y []].
  - apply StronglySorted_inv in H. destruct H as [H Ha].
    destruct (IH H) as [H1 H2]. split.
    + constructor; [exact H1|]. rewrite Forall_forall in *.
      intros x Hx. apply Ha, in_or_app. left. exact Hx.
    + intros x y [<-|Hx] Hy.
      * rewrite Forall_forall in Ha. apply Ha, in_or_app. right. exact Hy.
      * apply H2; assumption.
Qed.

(** The evidence of a mapping is the five best retained items: it holds
    [min(5, number retained)] items, in descending order of score, each
    retained (so of a score that reaches the threshold), and no retained
    item that was left out scores more than one that was kept. *)
Theorem mapping_evidence_is_top_five :
  forall model questions library threshold m,
    In m (map_evidence_to_questions model questions library threshold) ->
    let retained := find_evidence model (question m) library threshold in
    List.length (evidence m) = Nat.min 5 (List.length retained)
    /\ StronglySorted
         (fun a b => (similarity_score b <= similarity_score a)%Q)
         (evidence m)
    /\ (forall e, In e (evidence m) ->
          In e retained /\ (threshold <= similarity_score e)%Q)
    /\ (exists rest,
          Permutation (evidence m ++ rest) retained
          /\ forall e e', In e (evidence m) -> In e' rest ->
               (similarity_score e' <= similarity_score e)%Q).
Proof.
  intros model questions library threshold m Hm retained.
  apply in_map_evidence_to_questions in Hm. fold retained in Hm.
  destruct Hm as [Hev _].
  set (sorted := PyList.sort_by_key_reverse similarity_score retained) in *.
  assert (Hperm : Permutation sorted retained) by apply sort_perm.
  assert (Hsorted : StronglySorted
            (fun a b => (similarity_score b <= similarity_score a)%Q) sorted).
  { pose proof (sort_sorted
                  (fun x y : MatchedEvidence =>
                     Qle_bool (similarity_score y) (similarity_score x))
                  (fun x y => score_before_total x y)
                  (fun x y z => score_before_trans x y z) retained) as S.
    fold (PyList.sort_by_key_reverse similarity_score retained) in S.
    fold sorted in S. clear -S.
    induction S as [|a l _ IH Ha]; constructor; [exact IH|].
    eapply Forall_impl; [|exact Ha]. intros b Hb. apply Qle_bool_iff, Hb. }
  rewrite <- (firstn_skipn 5 sorted) in Hperm, Hsorted.
  rewrite <- Hev in Hperm, Hsorted.
  apply StronglySorted_app_inv in Hsorted. destruct Hsorted as [Hs Hcross].
  split; [|split; [exact Hs|split]].
  - rewrite Hev, length_firstn. f_equal.
    apply Permutation_length, sort_perm.
  - intros e He.
    assert (Hin : In e retained).
    { eapply Permutation_in; [exact Hperm|]. apply in_or_app. left. exact He. }
    split; [exact Hin|]. apply in_find_evidence in Hin.
    destruct Hin as [ev [_ [Hle ->]]]. exact Hle.
  - exists (skipn 5 sorted). split; [exact Hperm|].
    intros e e' He He'. apply Hcross; assumption.
Qed.

(** The gaps of a mapping: "No evidence found" exactly when nothing was
    retained, "Evidence is weak or indirect" exactly when the top score is
    below 0.4, "Single source only" exactly when fewer than two items were
    retained; the first two exclude each other, so a mapping has at most two
    gaps. *)
Theorem mapping_gaps_law :
  forall model questions library threshold m,
    In m (map_evidence_to_questions model questions library threshold) ->
    let retained := find_evidence model (question m) library threshold in
    (In "No evidence found in vendor documentation" (gaps m) <->
       retained = [])
    /\ (In "Evidence is weak or indirect" (gaps m) <->
        exists s, top_score m = Some s /\ (s < 4 # 10)%Q)
    /\ (In "Single source only - requires corroboration" (gaps m) <->
        List.length retained < 2)
    /\ List.length (gaps m) <= 2.
Proof.
  intros model questions library threshold m Hm retained.
  apply in_map_evidence_to_questions in Hm. fold retained in Hm.
  destruct Hm as [Hev [_ Hg]].
  assert (Hlen : List.length (PyList.sort_by_key_reverse similarity_score retained)
                 = List.length retained).
  { apply Permutation_length, sort_perm. }
  assert (Hnil : PyList.sort_by_key_reverse similarity_score retained = []
                 <-> retained = []) by apply sort_nil_iff.
  unfold top_score. rewrite Hev, Hg. unfold _identify_gaps.
  destruct (PyList.sort_by_key_reverse similarity_score retained)
    as [|top rest] eqn:Hs.
  - assert (Hr : retained = []) by (apply Hnil; reflexivity).
    rewrite Hr. simpl. split; [tauto|]. split; [|split; [|lia]].
    + split; [intros [H|[H|[]]]; discriminate | intros [s [H _]]; discriminate].
    + split; [lia | auto].
  - assert (Hr : retained <> []).
    { intros H. apply Hnil in H. discriminate. }
    rewrite <- Hlen. cbn [firstn List.length].
    destruct (Qlt_bool (similarity_score top) (4 # 10)) eqn:E.
    + assert (Hlt : (similarity_score top < 4 # 10)%Q).
      { unfold Qlt_bool in E. apply negb_true_iff, Qle_bool_false_iff in E.
        exact E. }
      split; [|split; [|split]].
      * split; [|contradiction].
        intros H. apply in_app_or in H. destruct H as [[H|[]]|H];
          [discriminate|].
        destruct (S (List.length rest) <? 2); [|destruct H].
        destruct H as [H|[]]. discriminate.
      * split; [intros _; exists (similarity_score top); auto|].
        intros _. apply in_or_app. left. left. reflexivity.
      * destruct (S (List.length rest) <? 2) eqn:E2.
        -- apply Nat.ltb_lt in E2. split; [intros _; exact E2|].
           intros _. apply in_or_app. right. left. reflexivity.
        -- apply Nat.ltb_ge in E2. split; [|lia].
           intros H. apply in_app_or in H.
           destruct H as [[H|[]]|[]]. discriminate.
      * rewrite length_app. destruct (S (List.length rest) <? 2); simpl; lia.
    + assert (Hge : (4 # 10 <= similarity_score top)%Q).
      { unfold Qlt_bool in E. apply negb_false_iff, Qle_bool_iff in E.
        exact E. }
      split; [|split; [|split]].
      * split; [|contradiction]. simpl.
        destruct (S (List.length rest) <? 2); [|intros []].
        intros [H|[]]. discriminate.
      * split.
        -- simpl. destruct (S (List.length rest) <? 2); [|intros []].
           intros [H|[]]. discriminate.
        -- intros [s [H Hlt]]. injection H as <-.
           exfalso. apply (Qlt_not_le _ _ Hlt Hge).
      * simpl. destruct (S (List.length rest) <? 2) eqn:E2.
        -- apply Nat.ltb_lt in E2. split; [intros _; exact E2|].
           intros _. left. reflexivity.
        -- apply Nat.ltb_ge in E2. split; [intros []|lia].
      * simpl. destruct (S (List.length rest) <? 2); simpl; lia.
Qed.

Lemma mapping_gaps_witness :
  gaps (sample_mapping question_unmatched)
  = ["No evidence found in vendor documentation";
     "Single source only - requires corroboration"]
  /\ List.length (gaps (sample_mapping question_unmatched)) <= 2.
Proof.
  split; [reflexivity|].
  apply (mapping_gaps_law None [question_unmatched] sample_library
           default_threshold (sample_mapping question_unmatched)
           (or_introl eq_refl)).
Defined.

Lemma mapping_evidence_witness :
  List.length (evidence (sample_mapping question_strong)) = 1.
Proof.
  destruct (mapping_evidence_is_top_five None [question_strong]
              sample_library default_threshold
              (sample_mapping question_strong) (or_introl eq_refl))
    as [H _].
  rewrite H. vm_compute. reflexivity.
Defined.

End MapperClaims.

(** ** The lexical similarity *)

Section SimilarityFacts.

Import QuestionnaireMapper.

Lemma mem_In (x : string) (l : list string) : PyStr.mem x l = true <-> In x l.
Proof.
  unfold PyStr.mem. rewrite existsb_exists. split.
  - intros [y [Hy E]]. apply String.eqb_eq in E. subst y. exact Hy.
  - intros H. exists x. split; [exact H | apply String.eqb_refl].
Qed.

Lemma in_distinct (x : string) (l : list string) :
  In x (PyStr.distinct l) <-> In x l.
Proof. unfold PyStr.distinct. apply nodup_In. Qed.

Lemma NoDup_distinct (l : list string) : NoDup (PyStr.distinct l).
Proof. unfold PyStr.distinct. apply NoDup_nodup. Qed.

(** Two duplicate-free lists with the same elements have the same length:
    the size of the set they enumerate. *)
Lemma NoDup_same_length (l l' : list string) :
  NoDup l -> NoDup l' -> (forall x, In x l <-> In x l') ->
  List.length l = List.length l'.
Proof.
  intros H H' E. apply Permutation_length, NoDup_Permutation; assumption.
Qed.

Lemma ratio_in_unit_interval (a b : nat) :
  a <= b -> 0 < b ->
  (0 <= inject_Z (Z.of_nat a) / inject_Z (Z.of_nat b))%Q
  /\ (inject_Z (Z.of_nat a) / inject_Z (Z.of_nat b) <= 1)%Q.
Proof.
  intros Hab Hb.
  assert (Hpos : (0 < inject_Z (Z.of_nat b))%Q).
  { replace 0%Q with (inject_Z 0) by reflexivity. rewrite <- Zlt_Qlt. lia. }
  split.
  - apply Qle_shift_div_l; [exact Hpos|].
    rewrite Qmult_0_l. replace 0%Q with (inject_Z 0) by reflexivity.
    rewrite <- Zle_Qle. lia.
  - apply Qle_shift_div_r; [exact Hpos|].
    rewrite Qmult_1_l. rewrite <- Zle_Qle. lia.
Qed.

(** The fallback of [calculate_similarity], with its two sets and their
    intersection named. *)
Lemma calculate_similarity_fallback (question evidence_text : string) :
  let question_words := PyStr.distinct (PyStr.split (PyStr.lower question)) in
  let evidence_words := PyStr.distinct (PyStr.split (PyStr.lower evidence_text)) in
  let common := filter (fun w => PyStr.mem w evidence_words) question_words in
  calculate_similarity None question evidence_text
  = match question_words with
    | [] => 0%Q
    | _ :: _ =>
        (inject_Z (Z.of_nat (List.length common))
         / inject_Z (Z.of_nat (List.length question_words)))%Q
    end.
Proof. reflexivity. Qed.

End SimilarityFacts.

Section SimilarityClaims.

Import QuestionnaireMapper.

(** C8: without an embedding model the score of a question against an
    evidence text is the number of tokens common to the question and the
    evidence text divided by the number of tokens of the question, where the
    tokens of a string are the white-space separated words of its
    lower-cased form, taken as a set; it is 0 when the question has no
    token; and it always lies in [0, 1].  The sets are given by any
    duplicate-free enumerations [Tq] (tokens of the question) and [Tqe] (the
    tokens common to both). *)
Theorem C8_lexical_similarity_is_token_overlap :
  forall question evidence_text,
    let score := calculate_similarity None question evidence_text in
    let tokens s := PyStr.split (PyStr.lower s) in
    (forall Tq Tqe : list string,
       NoDup Tq -> (forall w, In w Tq <-> In w (tokens question)) ->
       NoDup Tqe ->
       (forall w, In w Tqe <->
                  In w (tokens question) /\ In w (tokens evidence_text)) ->
       (Tq = [] -> score = 0%Q)
       /\ (Tq <> [] ->
           score = (inject_Z (Z.of_nat (List.length Tqe))
                    / inject_Z (Z.of_nat (List.length Tq)))%Q))
    /\ (tokens question = [] -> score = 0%Q)
    /\ (0 <= score)%Q /\ (score <= 1)%Q.
Proof.
  intros question evidence_text score tokens.
  pose proof (calculate_similarity_fallback question evidence_text) as Hs.
  cbv zeta in Hs. fold score in Hs. fold (tokens question) in Hs.
  fold (tokens evidence_text) in Hs.
  set (qw := PyStr.distinct (tokens question)) in *.
  set (ew := PyStr.distinct (tokens evidence_text)) in *.
  set (common := filter (fun w => PyStr.mem w ew) qw) in *.
  assert (Hcommon : forall w, In w common <->
            In w (tokens question) /\ In w (tokens evidence_text)).
  { intros w. unfold common. rewrite filter_In, mem_In.
    unfold qw, ew. rewrite !in_distinct. reflexivity. }
  assert (Hnd : NoDup common).
  { unfold common. apply NoDup_filter, NoDup_distinct. }
  split; [|split].
  - intros Tq Tqe HTq HTqin HTqe HTqein.
    assert (Lq : List.length Tq = List.length qw).
    { apply NoDup_same_length; [assumption | apply NoDup_distinct |].
      intros w. rewrite HTqin. unfold qw. rewrite in_distinct. reflexivity. }
    assert (Lqe : List.length Tqe = List.length common).
    { apply NoDup_same_length; [assumption | assumption |].
      intros w. rewrite HTqein, Hcommon. reflexivity. }
    split.
    + intros ->. simpl in Lq. destruct qw; [exact Hs | discriminate].
    + intros Hne. rewrite Lq, Lqe.
      destruct qw; [|exact Hs]. destruct Tq; [contradiction | discriminate].
  - intros Hnil. unfold qw in Hs. rewrite Hnil in Hs. exact Hs.
  - destruct qw as [|w0 qw'] eqn:Eq.
    + rewrite Hs. split; [apply Qle_refl | unfold Qle; simpl; lia].
    + rewrite Hs. apply ratio_in_unit_interval.
      * unfold common. apply filter_length_le.
      * simpl. lia.
Qed.

Lemma C8_lexical_similarity_witness :
  calculate_similarity None "Does the vendor encrypt data at rest?"
    "The vendor does encrypt all data at rest"
  = (inject_Z 6 / inject_Z 7)%Q.
Proof.
  pose proof (C8_lexical_similarity_is_token_overlap
                "Does the vendor encrypt data at rest?"
                "The vendor does encrypt all data at rest") as [H _].
  cbv zeta in H.
  apply (H ["does"; "the"; "vendor"; "encrypt"; "data"; "at"; "rest?"]
           ["does"; "the"; "vendor"; "encrypt"; "data"; "at"]).
  - repeat constructor; simpl; intuition discriminate.
  - intros w. vm_compute. tauto.
  - repeat constructor; simpl; intuition discriminate.
  - intros w. vm_compute. intuition (subst; auto; try discriminate).
  - discriminate.
Defined.

End SimilarityClaims.

(** ** Dictionaries of counters *)

Section DictFacts.
Context {V : Type}.
Implicit Types (d : list (string * V)) (k : string) (v : V).

Lemma get_set_eq d k v : PyDict.get (PyDict.set d k v) k = Some v.
Proof.
  induction d as [|[k' v'] d IH]; simpl.
  - rewrite String.eqb_refl. reflexivity.
  - destruct (String.eqb k k') eqn:E; simpl.
    + rewrite String.eqb_refl. reflexivity.
    + rewrite E. exact IH.
Qed.

Lemma get_set_neq d k k' v :
  k <> k' -> PyDict.get (PyDict.set d k v) k' = PyDict.get d k'.
Proof.
  intros Hne. induction d as [|[k0 v0] d IH]; simpl.
  - destruct (String.eqb k' k) eqn:E; [|reflexivity].
    apply String.eqb_eq in E. congruence.
  - destruct (String.eqb k k0) eqn:E; simpl.
    + apply String.eqb_eq in E. subst k0.
      destruct (String.eqb k' k) eqn:E'; [|reflexivity].
      apply String.eqb_eq in E'. congruence.
    + destruct (String.eqb k' k0); [reflexivity | exact IH].
Qed.

Lemma in_keys_set d k v k' :
  In k' (PyDict.keys (PyDict.set d k v)) <-> k' = k \/ In k' (PyDict.keys d).
Proof.
  unfold PyDict.keys. induction d as [|[k0 v0] d IH]; simpl.
  - intuition congruence.
  - destruct (String.eqb k k0) eqn:E; simpl.
    + apply String.eqb_eq in E. subst k0. intuition congruence.
    + rewrite IH. intuition congruence.
Qed.

Lemma NoDup_keys_set d k v :
  NoDup (PyDict.keys d) -> NoDup (PyDict.keys (PyDict.set d k v)).
Proof.
  unfold PyDict.keys. induction d as [|[k0 v0] d IH]; simpl; intros H.
  - constructor; [intros [] | constructor].
  - inversion H as [|? ? Hnotin Hnd]; subst.
    destruct (String.eqb k k0) eqn:E; simpl.
    + apply String.eqb_eq in E. subst k0. constructor; assumption.
    + constructor; [|apply IH; assumption].
      intros Hin. apply (in_keys_set d k v k0) in Hin.
      destruct Hin as [->|Hin]; [|contradiction].
      rewrite String.eqb_refl in E. discriminate.
Qed.

End DictFacts.

(** Adding one to a counter adds one to the sum of the counters. *)
Lemma sum_values_increment (d : list (string * nat)) (k : string) :
  list_sum (PyDict.values (PyDict.set d k (PyDict.get_default d k 0 + 1)))
  = list_sum (PyDict.values d) + 1.
Proof.
  unfold PyDict.values, PyDict.get_default.
  induction d as [|[k' v'] d IH]; simpl.
  - reflexivity.
  - destruct (String.eqb k k') eqn:E; simpl.
    + lia.
    + rewrite IH. lia.
Qed.

Lemma get_default_increment (d : list (string * nat)) (k k' : string) :
  PyDict.get_default (PyDict.set d k (PyDict.get_default d k 0 + 1)) k' 0
  = PyDict.get_default d k' 0 + (if String.eqb k k' then 1 else 0).
Proof.
  destruct (String.eqb k k') eqn:E.
  - apply String.eqb_eq in E. subst k'.
    unfold PyDict.get_default at 1. rewrite get_set_eq. reflexivity.
  - unfold PyDict.get_default at 1. rewrite get_set_neq.
    + unfold PyDict.get_default. lia.
    + intros ->. rewrite String.eqb_refl in E. discriminate.
Qed.

(** ** The confidence distribution *)

Section ConfidenceFacts.

Import QuestionnaireMapper RiskAssessor.

(** The loop of [_analyze_confidence], started from any dictionary. *)
Lemma analyze_confidence_loop (ms : list QuestionMapping)
    (stats : list (string * nat)) :
  let result :=
    fold_left
      (fun stats mapping =>
         let conf := confidence mapping in
         PyDict.set stats conf (PyDict.get_default stats conf 0 + 1))
      ms stats in
  list_sum (PyDict.values result)
  = list_sum (PyDict.values stats) + List.length ms
  /\ (forall k, PyDict.get_default result k 0
                = PyDict.get_default stats k 0 + count_confidence k ms)
  /\ (NoDup (PyDict.keys stats) -> NoDup (PyDict.keys result))
  /\ (forall k, In k (PyDict.keys result) <->
                In k (PyDict.keys stats)
                \/ exists m, In m ms /\ confidence m = k).
Proof.
  revert stats. induction ms as [|m ms IH]; intros stats; cbv zeta; simpl.
  - repeat split; auto.
    + intros [H|[m [[] _]]]. exact H.
  - specialize (IH (PyDict.set stats (confidence m)
                      (PyDict.get_default stats (confidence m) 0 + 1))).
    cbv zeta in IH. destruct IH as [Hsum [Hget [Hnd Hkeys]]].
    split; [|split; [|split]].
    + rewrite Hsum, sum_values_increment. lia.
    + intros k. rewrite Hget, get_default_increment.
      unfold count_confidence. simpl.
      destruct (String.eqb (confidence m) k); simpl; lia.
    + intros H. apply Hnd, NoDup_keys_set, H.
    + intros k. rewrite Hkeys, in_keys_set. split.
      * intros [[->|H]|[m' [H1 H2]]]; eauto.
      * intros [H|[m' [[->|H1] H2]]]; eauto.
Qed.

End ConfidenceFacts.

Section AssessorClaims.

Import QuestionnaireMapper RiskAssessor.

(** C10: the confidence distribution of the assessment counts every input
    mapping under exactly one key: its keys are distinct, the count under a
    key is the number of mappings with that confidence, every key is the
    confidence of some mapping, and the counts add up to
    [summary.total_questions], the number of mappings.  When every mapping
    has one of the four confidences, so has every key. *)
Theorem C10_confidence_distribution_counts_each_mapping_once :
  forall list_of_set mappings vendor_metadata web_search_results,
    let a := assess list_of_set mappings vendor_metadata web_search_results in
    let dist := Assessment.confidence_distribution a in
    list_sum (PyDict.values dist)
    = Summary.total_questions (Assessment.summary a)
    /\ Summary.total_questions (Assessment.summary a) = List.length mappings
    /\ NoDup (PyDict.keys dist)
    /\ (forall k, PyDict.get_default dist k 0 = count_confidence k mappings)
    /\ (forall k, In k (PyDict.keys dist) <->
                  exists m, In m mappings /\ confidence m = k)
    /\ (Forall (fun m => In (confidence m) ["HIGH"; "MEDIUM"; "LOW"; "NOT_FOUND"])
               mappings ->
        Forall (fun k => In k ["HIGH"; "MEDIUM"; "LOW"; "NOT_FOUND"])
               (PyDict.keys dist)).
Proof.
  intros list_of_set mappings vm ws a dist.
  destruct (analyze_confidence_loop mappings []) as [Hsum [Hget [Hnd Hkeys]]].
  change (fold_left _ mappings []) with dist in Hsum, Hget, Hnd, Hkeys.
  simpl in Hsum, Hget, Hkeys.
  split; [exact Hsum|]. split; [reflexivity|].
  split; [apply Hnd; constructor|].
  split; [exact Hget|].
  assert (Hk : forall k, In k (PyDict.keys dist) <->
                         exists m, In m mappings /\ confidence m = k).
  { intros k. rewrite Hkeys. split; [intros [[]|H]; exact H | auto]. }
  split; [exact Hk|].
  intros Hall. rewrite Forall_forall in *. intros k Hin.
  apply Hk in Hin. destruct Hin as [m [Hm <-]]. auto.
Qed.

Lemma C10_confidence_distribution_witness :
  Assessment.confidence_distribution
    (assess set_order_a sample_mappings None None)
  = [("LOW", 1); ("NOT_FOUND", 2)]
  /\ Forall (fun k => In k ["HIGH"; "MEDIUM"; "LOW"; "NOT_FOUND"])
       (PyDict.keys
          (Assessment.confidence_distribution
             (assess set_order_a sample_mappings None None))).
Proof.
  split; [reflexivity|].
  destruct (C10_confidence_distribution_counts_each_mapping_once
              set_order_a sample_mappings None None)
    as (_ & _ & _ & _ & _ & H).
  apply H. repeat constructor; simpl; tauto.
Defined.

(** A risk of a category is HIGH or MEDIUM. *)
Lemma category_risk_severity list_of_set mappings entry r :
  In r (category_risk list_of_set mappings entry) ->
  Risk.severity r = "HIGH" \/ Risk.severity r = "MEDIUM".
Proof.
  unfold category_risk.
  destruct (filter (in_category (snd entry)) mappings) as [|m0 cq];
    [intros []|].
  destruct (gt_times _ _ 0.5); [|intros []].
  intros [<-|[]]. simpl.
  destruct (gt_times _ _ 0.7); auto.
Qed.

Lemma in_identify_risks list_of_set mappings r :
  In r (_identify_risks list_of_set mappings) <->
  exists entry, In entry RISK_CATEGORIES
                /\ In r (category_risk list_of_set mappings entry).
Proof.
  unfold _identify_risks, PyList.sort_by_key.
  rewrite in_sort, in_flat_map. reflexivity.
Qed.

Lemma count_severity_absent (k : string) (risks : list Risk.t) :
  Forall (fun r => Risk.severity r <> k) risks -> count_severity k risks = 0.
Proof.
  unfold count_severity. induction 1 as [|r l Hr _ IH]; simpl.
  - reflexivity.
  - destruct (String.eqb (Risk.severity r) k) eqn:E; [|exact IH].
    apply String.eqb_eq in E. contradiction.
Qed.

Lemma count_severity_high_medium (risks : list Risk.t) :
  Forall (fun r => Risk.severity r = "HIGH" \/ Risk.severity r = "MEDIUM") risks ->
  count_severity "HIGH" risks + count_severity "MEDIUM" risks
  = List.length risks.
Proof.
  unfold count_severity. induction 1 as [|r l Hr _ IH]; simpl.
  - reflexivity.
  - destruct Hr as [-> | ->]; simpl; lia.
Qed.

(** C7: no risk of the assessment has severity LOW: every risk is HIGH or
    MEDIUM, the summary counts no low risk, and its critical and medium
    counts add up to the number of risks. *)
Theorem C7_no_risk_has_low_severity :
  forall list_of_set mappings vendor_metadata web_search_results,
    let a := assess list_of_set mappings vendor_metadata web_search_results in
    Forall (fun r => Risk.severity r = "HIGH" \/ Risk.severity r = "MEDIUM")
           (Assessment.risks a)
    /\ Forall (fun r => Risk.severity r <> "LOW") (Assessment.risks a)
    /\ Summary.low_risks (Assessment.summary a) = 0
    /\ Summary.critical_risks (Assessment.summary a)
       + Summary.medium_risks (Assessment.summary a)
       = List.length (Assessment.risks a).
Proof.
  intros list_of_set mappings vm ws a.
  assert (H : Forall (fun r => Risk.severity r = "HIGH"
                               \/ Risk.severity r = "MEDIUM")
                     (_identify_risks list_of_set mappings)).
  { apply Forall_forall. intros r Hr. apply in_identify_risks in Hr.
    destruct Hr as [entry [_ Hr]]. eapply category_risk_severity, Hr. }
  assert (H' : Forall (fun r => Risk.severity r <> "LOW")
                      (_identify_risks list_of_set mappings)).
  { eapply Forall_impl; [|exact H]. intros r [-> | ->]; discriminate. }
  split; [exact H|]. split; [exact H'|].
  split; [apply count_severity_absent, H' | apply count_severity_high_medium, H].
Qed.

(** *** The risk score *)

Lemma round_half_even_close (x : Q) :
  (x - (1 # 2) <= inject_Z (round_half_even x))%Q
  /\ (inject_Z (round_half_even x) <= x + (1 # 2))%Q.
Proof.
  unfold round_half_even.
  pose proof (Qfloor_le x) as Hlo. pose proof (Qlt_floor x) as Hhi.
  rewrite inject_Z_plus in Hhi.
  change (inject_Z 1) with 1%Q in Hhi.
  set (f := Qfloor x) in *.
  destruct (Qcompare_spec (x - inject_Z f) (1 # 2)) as [E|E|E].
  - destruct (Z.even f).
    + split; lra.
    + rewrite inject_Z_plus. change (inject_Z 1) with 1%Q. split; lra.
  - split; lra.
  - rewrite inject_Z_plus. change (inject_Z 1) with 1%Q. split; lra.
Qed.

Lemma round1_close (x : Q) :
  (x - (1 # 20) <= round1 x)%Q /\ (round1 x <= x + (1 # 20))%Q.
Proof.
  unfold round1.
  destruct (round_half_even_close (x * 10)) as [Hlo Hhi].
  set (r := round_half_even (x * 10)) in *.
  rewrite (Qmake_Qdiv r 10). change (inject_Z (Z.pos 10)) with 10%Q.
  split.
  - apply Qle_shift_div_l; lra.
  - apply Qle_shift_div_r; lra.
Qed.

(** The weight of a confidence, as [score_map.get(confidence, 0)] gives it. *)
Lemma score_map_weight (c : string) :
  PyDict.get_default score_map c 0
  = if String.eqb c "HIGH" then 3
    else if String.eqb c "MEDIUM" then 2
    else if String.eqb c "LOW" then 1
    else 0.
Proof.
  unfold PyDict.get_default, score_map. simpl.
  destruct (String.eqb c "HIGH"); [reflexivity|].
  destruct (String.eqb c "MEDIUM"); [reflexivity|].
  destruct (String.eqb c "LOW"); [reflexivity|].
  destruct (String.eqb c "NOT_FOUND"); reflexivity.
Qed.

(** The score before rounding. *)
Lemma normalized_score_exact (w n : nat) :
  0 < n ->
  (inject_Z (Z.of_nat w) / inject_Z (Z.of_nat (n * 3)) * 100
   == 100 * inject_Z (Z.of_nat w) / (3 * inject_Z (Z.of_nat n)))%Q.
Proof.
  intros Hn. rewrite Nat2Z.inj_mul, inject_Z_mult.
  change (inject_Z (Z.of_nat 3)) with 3%Q.
  assert (Hne : ~ (inject_Z (Z.of_nat n) == 0)%Q).
  { intros H. unfold Qeq in H. simpl in H. lia. }
  field. exact Hne.
Qed.

(** C3, as amended: with [n] mappings and [W] the sum of their weights
    (HIGH 3, MEDIUM 2, LOW 1, anything else 0), the reported risk score is
    [100 W / (3 n)] rounded to one decimal place: a multiple of one tenth at
    most one twentieth away from it.  With [n = 0] the score is 0 and the
    level UNKNOWN.  Otherwise the level follows from the value before
    rounding: LOW RISK from 70 on, MEDIUM RISK from 50 up to 70, HIGH RISK
    from 30 up to 50, and CRITICAL RISK below 30. *)
Theorem C3_risk_score_is_rounded_weighted_mean :
  forall list_of_set mappings vendor_metadata web_search_results,
    let a := assess list_of_set mappings vendor_metadata web_search_results in
    let n := List.length mappings in
    let weight (c : string) :=
      if String.eqb c "HIGH" then 3
      else if String.eqb c "MEDIUM" then 2
      else if String.eqb c "LOW" then 1
      else 0 in
    let W := list_sum (map (fun m => weight (confidence m)) mappings) in
    let exact :=
      (100 * inject_Z (Z.of_nat W) / (3 * inject_Z (Z.of_nat n)))%Q in
    (n = 0 ->
       Assessment.risk_score a = 0%Q /\ Assessment.overall_risk a = "UNKNOWN")
    /\ (0 < n ->
        (exact - (1 # 20) <= Assessment.risk_score a)%Q
        /\ (Assessment.risk_score a <= exact + (1 # 20))%Q
        /\ (exists k : Z, Assessment.risk_score a = (k # 10)%Q)
        /\ ((70 <= exact)%Q -> Assessment.overall_risk a = "LOW RISK")
        /\ ((50 <= exact)%Q /\ (exact < 70)%Q ->
            Assessment.overall_risk a = "MEDIUM RISK")
        /\ ((30 <= exact)%Q /\ (exact < 50)%Q ->
            Assessment.overall_risk a = "HIGH RISK")
        /\ ((exact < 30)%Q -> Assessment.overall_risk a = "CRITICAL RISK")).
Proof.
  intros list_of_set mappings vm ws a n weight W exact.
  unfold a, assess. cbv zeta. simpl Assessment.risk_score.
  simpl Assessment.overall_risk.
  unfold _calculate_risk_score. fold n.
  replace (list_sum
             (map (fun m => PyDict.get_default score_map (confidence m) 0)
                  mappings)) with W.
  2:{ unfold W. f_equal. apply map_ext. intros m.
      symmetry. apply score_map_weight. }
  split.
  - intros ->. simpl. auto.
  - intros Hn. destruct (n =? 0) eqn:E; [apply Nat.eqb_eq in E; lia|].
    simpl RiskScore.score. simpl RiskScore.level.
    pose proof (normalized_score_exact W n Hn) as Hnorm. fold exact in Hnorm.
    set (norm := (inject_Z (Z.of_nat W) / inject_Z (Z.of_nat (n * 3)) * 100)%Q)
      in *.
    destruct (round1_close norm) as [Hlo Hhi].
    split; [lra|]. split; [lra|].
    split; [exists (round_half_even (norm * 10)); reflexivity|].
    destruct (Qle_bool 70 norm) eqn:E70;
      [apply Qle_bool_iff in E70 | apply Qle_bool_false_iff in E70];
      [|destruct (Qle_bool 50 norm) eqn:E50;
          [apply Qle_bool_iff in E50 | apply Qle_bool_false_iff in E50];
          [|destruct (Qle_bool 30 norm) eqn:E30;
              [apply Qle_bool_iff in E30 | apply Qle_bool_false_iff in E30]]];
      (split; [intros H; try reflexivity; exfalso; lra|]);
      (split; [intros [H1 H2]; try reflexivity; exfalso; lra|]);
      (split; [intros [H1 H2]; try reflexivity; exfalso; lra|]);
      intros H; try reflexivity; exfalso; lra.
Qed.

Lemma C3_risk_score_witness :
  (Assessment.risk_score (assess set_order_a sample_mappings None None)
   <= 100 * inject_Z 1 / (3 * inject_Z 3) + (1 # 20))%Q
  /\ Assessment.overall_risk (assess set_order_a sample_mappings None None)
     = "CRITICAL RISK".
Proof.
  destruct (C3_risk_score_is_rounded_weighted_mean
              set_order_a sample_mappings None None) as [_ H].
  cbv zeta in H. destruct H as (_ & Hhi & _ & _ & _ & _ & Hcrit).
  { simpl. lia. }
  split.
  - exact Hhi.
  - apply Hcrit. vm_compute. reflexivity.
Defined.

(** C3 as stated fails: for one LOW and two NOT_FOUND mappings the weighted
    mean is 100/9, and the reported score is 11.1.  For 49 HIGH, one MEDIUM
    and 21 NOT_FOUND mappings the reported score is 70.0 and the level is
    MEDIUM RISK. *)
Lemma C3_score_not_the_exact_quotient :
  Assessment.risk_score (assess set_order_a sample_mappings None None)
  = (111 # 10)%Q
  /\ ~ ((111 # 10) == 100 * inject_Z 1 / (3 * inject_Z 3))%Q
  /\ (let mappings :=
        repeat (mapping_of "Q" "Is there an office?" "HIGH" []) 49
        ++ [mapping_of "Q" "Is there an office?" "MEDIUM" []]
        ++ repeat (mapping_of "Q" "Is there an office?" "NOT_FOUND" []) 21 in
      Assessment.risk_score (assess set_order_a mappings None None)
      = (700 # 10)%Q
      /\ Assessment.overall_risk (assess set_order_a mappings None None)
         = "MEDIUM RISK").
Proof.
  split; [vm_compute; reflexivity|].
  split; [intros H; vm_compute in H; discriminate H|].
  split; vm_compute; reflexivity.
Qed.

(** *** The category thresholds *)

(** C2 at 63 low-confidence questions out of 90: 63 is not more than 0.7
    times 90, and the risk that is emitted is HIGH, because the binary64
    product [90 * 0.7] lies below 63. *)
Theorem C2_severity_at_sixty_three_of_ninety :
  forall list_of_set,
    map (fun r => (Risk.category r, Risk.severity r, Risk.description r))
        (_identify_risks list_of_set ninety_vendor_questions)
    = [("Vendor Management", "HIGH",
        "Insufficient evidence for 63/90 vendor management controls")]
    /\ gt_times 63 90 0.7 = true
    /\ ~ (7 * 90 < 10 * 63).
Proof.
  intros list_of_set.
  split; [vm_compute; reflexivity|].
  split; [vm_compute; reflexivity | lia].
Qed.

Lemma thresholds_agree_below_90 : thresholds_agree_below 90 = true.
Proof. vm_compute. reflexivity. Qed.

Lemma thresholds_agree_below_ninety (n low : nat) :
  n < 90 -> low <= n ->
  gt_times low n 0.5 = (n <? 2 * low)
  /\ gt_times low n 0.7 = (7 * n <? 10 * low).
Proof.
  intros Hn Hlow.
  pose proof thresholds_agree_below_90 as H.
  unfold thresholds_agree_below in H.
  rewrite forallb_forall in H. specialize (H n).
  rewrite forallb_forall in H.
  assert (Hin : In n (seq 0 90)) by (apply in_seq; lia).
  specialize (H Hin low).
  assert (Hin' : In low (seq 0 (S n))) by (apply in_seq; lia).
  specialize (H Hin'). apply andb_true_iff in H. destruct H as [H1 H2].
  apply Bool.eqb_prop in H1, H2. auto.
Qed.

Lemma in_category_iff (keywords : list string) (m : QuestionMapping) :
  in_category keywords m = true <->
  exists kw, In kw keywords
             /\ PyStr.contains kw (PyStr.lower (question m)) = true.
Proof. unfold in_category. apply existsb_exists. Qed.

Lemma low_conf_iff (m : QuestionMapping) :
  low_conf m = true <-> confidence m = "LOW" \/ confidence m = "NOT_FOUND".
Proof.
  unfold low_conf. rewrite mem_In. simpl. intuition congruence.
Qed.

(** The severity law of a category with fewer than ninety matching
    questions: with [n] matching questions, [low] of them of confidence LOW
    or NOT_FOUND, no risk is emitted when [n = 0] or [low <= n / 2], and
    otherwise exactly one, which is HIGH when [low > 0.7 n] and MEDIUM when
    not. *)
Theorem category_risk_law_below_ninety :
  forall list_of_set mappings entry,
    let category_questions := filter (in_category (snd entry)) mappings in
    let n := List.length category_questions in
    let low := List.length (filter low_conf category_questions) in
    n < 90 ->
    (n = 0 -> category_risk list_of_set mappings entry = [])
    /\ (2 * low <= n -> category_risk list_of_set mappings entry = [])
    /\ (n < 2 * low ->
        exists r,
          category_risk list_of_set mappings entry = [r]
          /\ Risk.category r
             = PyStr.title (PyStr.replace_char "_" " " (fst entry))
          /\ Risk.affected_questions r
             = map question_id (filter low_conf category_questions)
          /\ (7 * n < 10 * low -> Risk.severity r = "HIGH")
          /\ (10 * low <= 7 * n -> Risk.severity r = "MEDIUM")).
Proof.
  intros list_of_set mappings entry cq n low Hn.
  assert (Hlow : low <= n) by apply filter_length_le.
  destruct (thresholds_agree_below_ninety n low Hn Hlow) as [H5 H7].
  unfold category_risk. fold cq. fold n. fold low.
  split; [|split].
  - intros H0. destruct cq; [reflexivity | discriminate].
  - intros Hle. destruct cq; [reflexivity|].
    rewrite H5. destruct (n <? 2 * low) eqn:E; [|reflexivity].
    apply Nat.ltb_lt in E. lia.
  - intros Hlt. destruct cq as [|m0 cq'] eqn:Ecq.
    + simpl in n. unfold n in Hlt. simpl in low. unfold low in Hlt. lia.
    + rewrite H5, H7. apply Nat.ltb_lt in Hlt. rewrite Hlt.
      eexists. split; [reflexivity|].
      cbn [Risk.category Risk.affected_questions Risk.severity].
      split; [reflexivity|]. split; [reflexivity|].
      destruct (7 * n <? 10 * low) eqn:E.
      * apply Nat.ltb_lt in E. split; intros H; [reflexivity | lia].
      * apply Nat.ltb_ge in E. split; intros H; [lia | reflexivity].
Qed.

Lemma category_risk_law_witness :
  map Risk.severity
      (category_risk set_order_a sample_mappings
         ("vendor_management",
          ["vendor"; "third party"; "supplier"; "subprocessor"]))
  = ["HIGH"].
Proof.
  destruct (category_risk_law_below_ninety set_order_a sample_mappings
              ("vendor_management",
               ["vendor"; "third party"; "supplier"; "subprocessor"]))
    as (_ & _ & H).
  { vm_compute. lia. }
  destruct H as (r & -> & _ & _ & H & _).
  { vm_compute. lia. }
  simpl. rewrite H; [reflexivity|]. vm_compute. lia.
Defined.

(** *** Dependence on the iteration order of sets *)

Lemma Forall2_flat_map {A B C : Type} (R : B -> C -> Prop)
    (f : A -> list B) (g : A -> list C) (l : list A) :
  (forall x, In x l -> Forall2 R (f x) (g x)) ->
  Forall2 R (flat_map f l) (flat_map g l).
Proof.
  induction l as [|x l IH]; simpl; intros H.
  - constructor.
  - apply Forall2_app; [apply H; left; reflexivity|].
    apply IH. intros y Hy. apply H. right. exact Hy.
Qed.

Lemma flat_map_Forall2_eq {A B C : Type} (R : A -> B -> Prop)
    (f : A -> list C) (g : B -> list C) (l1 : list A) (l2 : list B) :
  (forall a b, R a b -> f a = g b) ->
  Forall2 R l1 l2 -> flat_map f l1 = flat_map g l2.
Proof.
  intros Hfg. induction 1 as [|a b l1 l2 Hab _ IH]; simpl.
  - reflexivity.
  - rewrite (Hfg a b Hab), IH. reflexivity.
Qed.

Lemma category_risk_up_to_gap_order los1 los2 mappings entry :
  enumerates_set los1 -> enumerates_set los2 ->
  Forall2 same_risk_up_to_gap_order
    (category_risk los1 mappings entry) (category_risk los2 mappings entry).
Proof.
  intros H1 H2. unfold category_risk.
  destruct (filter (in_category (snd entry)) mappings) as [|m0 cq];
    [constructor|].
  destruct (gt_times _ _ 0.5); [|constructor].
  constructor; [|constructor].
  unfold same_risk_up_to_gap_order. simpl. repeat split.
  destruct (H1 (flat_map gaps (m0 :: cq))) as [N1 I1].
  destruct (H2 (flat_map gaps (m0 :: cq))) as [N2 I2].
  apply NoDup_Permutation; [assumption | assumption |].
  intros x. rewrite I1, I2. reflexivity.
Qed.

Lemma identify_risks_up_to_gap_order los1 los2 mappings :
  enumerates_set los1 -> enumerates_set los2 ->
  Forall2 same_risk_up_to_gap_order
    (_identify_risks los1 mappings) (_identify_risks los2 mappings).
Proof.
  intros H1 H2. unfold _identify_risks, PyList.sort_by_key.
  apply sort_Forall2.
  - intros a a' b b' (_ & Ha & _) (_ & Ha' & _). rewrite Ha, Ha'. reflexivity.
  - apply Forall2_flat_map. intros entry _.
    apply category_risk_up_to_gap_order; assumption.
Qed.

Lemma count_severity_up_to_gap_order k risks1 risks2 :
  Forall2 same_risk_up_to_gap_order risks1 risks2 ->
  count_severity k risks1 = count_severity k risks2.
Proof.
  unfold count_severity.
  induction 1 as [|r1 r2 l1 l2 (_ & Hs & _) _ IH]; simpl.
  - reflexivity.
  - rewrite Hs. destruct (String.eqb (Risk.severity r2) k); simpl; congruence.
Qed.

Lemma risk_threat_up_to_gaps r1 r2 :
  same_risk_up_to_gap_order r1 r2 ->
  same_threat_up_to_gaps (risk_threat r1) (risk_threat r2).
Proof.
  intros (Hc & Hs & Hd & Ha & _).
  unfold same_threat_up_to_gaps, risk_threat. simpl.
  rewrite Hc, Hs, Hd, Ha. repeat split.
Qed.

Lemma threat_mitigation_up_to_gaps t1 t2 :
  same_threat_up_to_gaps t1 t2 -> threat_mitigation t1 = threat_mitigation t2.
Proof.
  intros (Hc & Hs & _). unfold threat_mitigation. rewrite Hc, Hs. reflexivity.
Qed.

Lemma risk_recommendation_up_to_gap_order r1 r2 :
  same_risk_up_to_gap_order r1 r2 ->
  risk_recommendation r1 = risk_recommendation r2.
Proof.
  intros (Hc & Hs & Hd & Ha & _). unfold risk_recommendation.
  rewrite Hc, Hs, Hd, Ha. reflexivity.
Qed.

Lemma same_threat_refl t : same_threat_up_to_gaps t t.
Proof. unfold same_threat_up_to_gaps. repeat split. Qed.

(** Within one interpreter run the enumeration is one function, and the
    assessment is a function of its input. *)
Lemma category_risk_ext los1 los2 mappings entry :
  (forall xs, los1 xs = los2 xs) ->
  category_risk los1 mappings entry = category_risk los2 mappings entry.
Proof.
  intros H. unfold category_risk. rewrite H. reflexivity.
Qed.

Lemma assess_ext los1 los2 mappings vm ws :
  (forall xs, los1 xs = los2 xs) ->
  assess los1 mappings vm ws = assess los2 mappings vm ws.
Proof.
  intros H.
  assert (E : _identify_risks los1 mappings = _identify_risks los2 mappings).
  { unfold _identify_risks. f_equal. apply flat_map_ext.
    intros entry. apply category_risk_ext, H. }
  unfold assess. rewrite E. reflexivity.
Qed.

Lemma set_order_a_enumerates : enumerates_set set_order_a.
Proof.
  intros xs. unfold set_order_a. split; [apply NoDup_nodup|].
  intros x. apply nodup_In.
Qed.

Lemma set_order_b_enumerates : enumerates_set set_order_b.
Proof.
  intros xs. unfold set_order_b. split.
  - apply NoDup_rev, NoDup_nodup.
  - intros x. rewrite <- in_rev. apply nodup_In.
Qed.

(** C6, as amended: two runs on the same mappings, metadata and web results
    give assessments that agree in every field except the order in which
    each risk lists its deduplicated gaps (and hence the gaps copied to its
    threat): the overall risk, score, confidence distribution,
    recommendations, incident count, summary, attack surfaces and
    mitigations are identical, the risks and threats correspond one to one
    in the same order, and corresponding risks list permutations of the same
    gaps.  Two runs that enumerate sets alike, as within one interpreter
    process, give identical assessments. *)
Theorem C6_assessment_determined_up_to_gap_order :
  forall los1 los2 mappings vendor_metadata web_search_results,
    enumerates_set los1 -> enumerates_set los2 ->
    let a1 := assess los1 mappings vendor_metadata web_search_results in
    let a2 := assess los2 mappings vendor_metadata web_search_results in
    Assessment.overall_risk a1 = Assessment.overall_risk a2
    /\ Assessment.risk_score a1 = Assessment.risk_score a2
    /\ Assessment.confidence_distribution a1
       = Assessment.confidence_distribution a2
    /\ Assessment.recommendations a1 = Assessment.recommendations a2
    /\ Assessment.public_incidents_found a1
       = Assessment.public_incidents_found a2
    /\ Assessment.summary a1 = Assessment.summary a2
    /\ Forall2 same_risk_up_to_gap_order
         (Assessment.risks a1) (Assessment.risks a2)
    /\ ThreatModel.framework (Assessment.threat_model a1)
       = ThreatModel.framework (Assessment.threat_model a2)
    /\ ThreatModel.attack_surfaces (Assessment.threat_model a1)
       = ThreatModel.attack_surfaces (Assessment.threat_model a2)
    /\ ThreatModel.mitigations_needed (Assessment.threat_model a1)
       = ThreatModel.mitigations_needed (Assessment.threat_model a2)
    /\ Forall2 same_threat_up_to_gaps
         (ThreatModel.threats (Assessment.threat_model a1))
         (ThreatModel.threats (Assessment.threat_model a2))
    /\ ((forall xs, los1 xs = los2 xs) -> a1 = a2).
Proof.
  intros los1 los2 mappings vm ws H1 H2 a1 a2.
  pose proof (identify_risks_up_to_gap_order los1 los2 mappings H1 H2) as HR.
  assert (HT : Forall2 same_threat_up_to_gaps
                 (ThreatModel.threats (Assessment.threat_model a1))
                 (ThreatModel.threats (Assessment.threat_model a2))).
  { unfold a1, a2, assess, _generate_threat_model. simpl.
    apply Forall2_app.
    - clear -HR. induction HR; simpl; constructor;
        [apply risk_threat_up_to_gaps; assumption | assumption].
    - apply Forall2_flip, Forall2_flip.
      induction (map incident_threat _) as [|t l IH]; constructor;
        [apply same_threat_refl | exact IH]. }
  split; [reflexivity|]. split; [reflexivity|]. split; [reflexivity|].
  split.
  { unfold a1, a2, assess, _generate_recommendations. simpl. f_equal.
    eapply flat_map_Forall2_eq; [|exact HR].
    apply risk_recommendation_up_to_gap_order. }
  split; [reflexivity|].
  split.
  { unfold a1, a2, assess. simpl.
    rewrite !(count_severity_up_to_gap_order _ _ _ HR). reflexivity. }
  split; [exact HR|]. split; [reflexivity|]. split; [reflexivity|].
  split.
  { change (ThreatModel.mitigations_needed (Assessment.threat_model a1))
      with (flat_map threat_mitigation
              (ThreatModel.threats (Assessment.threat_model a1))).
    change (ThreatModel.mitigations_needed (Assessment.threat_model a2))
      with (flat_map threat_mitigation
              (ThreatModel.threats (Assessment.threat_model a2))).
    eapply flat_map_Forall2_eq; [|exact HT].
    apply threat_mitigation_up_to_gaps. }
  split; [exact HT|].
  apply assess_ext.
Qed.

Lemma C6_assessment_witness :
  Forall2 same_risk_up_to_gap_order
    (Assessment.risks (assess set_order_a sample_mappings None None))
    (Assessment.risks (assess set_order_b sample_mappings None None)).
Proof.
  apply (C6_assessment_determined_up_to_gap_order
           set_order_a set_order_b sample_mappings None None
           set_order_a_enumerates set_order_b_enumerates).
Defined.

(** C6 as stated fails: both enumerations list every set once, and the
    assessments of the same three mappings differ, in the order of the gaps
    of the vendor-management risk. *)
Lemma C6_gap_order_follows_set_iteration :
  enumerates_set set_order_a
  /\ enumerates_set set_order_b
  /\ assess set_order_a sample_mappings None None
     <> assess set_order_b sample_mappings None None
  /\ map Risk.gaps
       (Assessment.risks (assess set_order_a sample_mappings None None))
     = [ ["Evidence is weak or indirect";
          "Single source only - requires corroboration"] ]
  /\ map Risk.gaps
       (Assessment.risks (assess set_order_b sample_mappings None None))
     = [ ["Single source only - requires corroboration";
          "Evidence is weak or indirect"] ].
Proof.
  split; [apply set_order_a_enumerates|].
  split; [apply set_order_b_enumerates|].
  split.
  - intros H. apply (f_equal Assessment.risks) in H.
    apply (f_equal (map Risk.gaps)) in H. vm_compute in H. discriminate H.
  - split; vm_compute; reflexivity.
Qed.

End AssessorClaims.

(** ** The evidence extractor *)

Section ExtractorFacts.

Import EvidenceExtractor.

(** [needle in hay] holds exactly when [hay] is [a ++ needle ++ b]. *)
Lemma prefix_iff (p s : string) :
  prefix p s = true <-> exists b, s = (p ++ b)%string.
Proof.
  revert s. induction p as [|c p IH]; intros s; simpl.
  - split; [intros _; exists s; reflexivity | intros _; destruct s; reflexivity].
  - destruct s as [|c' s]; simpl;
      [split; [discriminate | intros [b H]; discriminate]|].
    destruct (ascii_dec c c') as [->|Hne].
    + rewrite IH. split; intros [b H]; exists b; congruence.
    + split; [discriminate|]. intros [b H]. congruence.
Qed.

Lemma contains_iff (needle hay : string) :
  PyStr.contains needle hay = true <->
  exists a b, hay = (a ++ needle ++ b)%string.
Proof.
  induction hay as [|c hay IH]; cbn [PyStr.contains].
  - rewrite orb_false_r, prefix_iff. split.
    + intros [b H]. exists EmptyString, b. exact H.
    + intros [a [b H]]. destruct a; [exists b; exact H | discriminate].
  - rewrite orb_true_iff, prefix_iff, IH. split.
    + intros [[b H]|[a [b H]]].
      * exists EmptyString, b. exact H.
      * exists (String c a), b. simpl. rewrite H. reflexivity.
    + intros [a [b H]]. destruct a as [|c' a]; simpl in H.
      * left. exists b. exact H.
      * right. exists a, b. congruence.
Qed.

Lemma in_matched_keywords (lowered kw : string) :
  In kw (matched_keywords lowered) <->
  In kw SECURITY_KEYWORDS /\ PyStr.contains kw lowered = true.
Proof. unfold matched_keywords. rewrite filter_In. reflexivity. Qed.

Lemma extract_sentence_cases (source_ref sentence : string) :
  let trimmed := PyStr.strip sentence in
  let matched := matched_keywords (PyStr.lower trimmed) in
  extract_sentence source_ref sentence
  = if yields_item trimmed
    then [ {| text := trimmed;
              keywords := matched;
              source := source_ref;
              confidence := if 1 <? List.length matched then "medium" else "low";
              type := "control_statement";
              row_data := None |} ]
    else [].
Proof.
  cbv zeta. unfold extract_sentence, yields_item.
  destruct (String.length (PyStr.strip sentence) <? 20) eqn:E.
  - apply Nat.ltb_lt in E.
    destruct (20 <=? String.length (PyStr.strip sentence)) eqn:E';
      [apply Nat.leb_le in E'; lia | reflexivity].
  - apply Nat.ltb_ge in E. apply Nat.leb_le in E. rewrite E. simpl.
    destruct (matched_keywords (PyStr.lower (PyStr.strip sentence)));
      reflexivity.
Qed.

Lemma extract_sentence_texts (source_ref sentence : string) :
  map text (extract_sentence source_ref sentence)
  = filter yields_item [PyStr.strip sentence].
Proof.
  rewrite extract_sentence_cases. simpl.
  destruct (yields_item (PyStr.strip sentence)); reflexivity.
Qed.

Lemma extract_from_text_texts (txt source_ref : string) :
  map text (extract_from_text txt source_ref)
  = filter yields_item (map PyStr.strip (PyStr.re_split_sentences txt)).
Proof.
  unfold extract_from_text.
  induction (PyStr.re_split_sentences txt) as [|seg segs IH].
  - reflexivity.
  - cbn [flat_map map]. rewrite map_app, IH, extract_sentence_texts.
    simpl. destruct (yields_item (PyStr.strip seg)); reflexivity.
Qed.

Lemma in_extract_from_text (txt source_ref : string) (item : EvidenceItem) :
  In item (extract_from_text txt source_ref) ->
  keywords item = matched_keywords (PyStr.lower (text item))
  /\ keywords item <> []
  /\ source item = source_ref
  /\ type item = "control_statement"
  /\ confidence item
     = (if 1 <? List.length (keywords item) then "medium" else "low")
  /\ row_data item = None.
Proof.
  unfold extract_from_text. rewrite in_flat_map.
  intros [seg [_ H]]. rewrite extract_sentence_cases in H. cbv zeta in H.
  unfold yields_item in H.
  remember (matched_keywords (PyStr.lower (PyStr.strip seg))) as matched eqn:E.
  destruct (20 <=? String.length (PyStr.strip seg)); [|destruct H].
  destruct matched as [|kw matched]; [destruct H|].
  destruct H as [<-|[]].
  cbn [keywords text source type confidence row_data].
  rewrite <- E. repeat split. discriminate.
Qed.

Lemma in_extract_from_table table_data (source_ref : string) (item : EvidenceItem) :
  In item (extract_from_table table_data source_ref) ->
  confidence item = "high" /\ type item = "table_entry".
Proof.
  unfold extract_from_table. destruct table_data as [|headers rows]; [intros []|].
  destruct (List.length (headers :: rows) <? 2); [intros []|].
  rewrite in_flat_map. intros [[i row] [_ H]]. revert H.
  unfold extract_row. cbn [fst snd].
  generalize (matched_keywords
                (PyStr.lower (String.concat " " (filter cell_is_true row)))).
  intros matched H.
  destruct matched as [|kw matched]; [destruct H|].
  destruct H as [<-|[]]. split; reflexivity.
Qed.

Lemma in_extract_certifications finditer (txt source_ref : string) cert :
  In cert (extract_certifications finditer txt source_ref) ->
  Certification.confidence cert = "high"
  /\ Certification.type cert = "certification".
Proof.
  unfold extract_certifications. rewrite in_flat_map.
  intros [pattern [_ H]]. apply in_map_iff in H.
  destruct H as [span [<- _]]. split; reflexivity.
Qed.

(** Where the entries of the library of [extract_all] come from. *)
Lemma in_extract_all finditer docs (item : LibraryItem) :
  In item (extract_all finditer docs) ->
  (exists txt source_ref e,
     item = Evidence e /\ In e (extract_from_text txt source_ref))
  \/ (exists table_data source_ref e,
        item = Evidence e /\ In e (extract_from_table table_data source_ref))
  \/ (exists txt source_ref c,
        item = Certificate c
        /\ In c (extract_certifications finditer txt source_ref)).
Proof.
  unfold extract_all. rewrite in_flat_map. intros [doc [_ H]].
  unfold extract_document in H.
  destruct (String.eqb (doc_type doc) "pdf").
  - apply in_app_or in H. destruct H as [H|H]; apply in_flat_map in H.
    + destruct H as [p [_ H]]. apply in_app_or in H.
      destruct H as [H|H]; apply in_map_iff in H; destruct H as [x [<- H]].
      * left. eauto.
      * right. right. eauto.
    + destruct H as [t [_ H]]. apply in_map_iff in H.
      destruct H as [x [<- H]]. right. left. eauto.
  - destruct (String.eqb (doc_type doc) "excel"); [|destruct H].
    apply in_flat_map in H. destruct H as [sh [_ H]]. apply in_app_or in H.
    destruct H as [H|H]; apply in_map_iff in H; destruct H as [x [<- H]].
    + left. eauto.
    + right. left. eauto.
Qed.

Lemma in_to_evidence_format results (e : EvidenceItem) :
  In e (WebSearchAgent.to_evidence_format results) ->
  type e = "web_search_control"
  \/ (type e = "web_search_incident" /\ confidence e = "HIGH").
Proof.
  unfold WebSearchAgent.to_evidence_format. intros H. apply in_app_or in H.
  destruct H as [H|H]; apply in_map_iff in H; destruct H as [x [<- _]].
  - left. reflexivity.
  - right. split; reflexivity.
Qed.

End ExtractorFacts.

Section ExtractorClaims.

Import EvidenceExtractor.

(** C9, as amended: [extract_from_text] splits the text at each '.', '!' or
    '?' that is followed by white space, trims every segment, and emits one
    item, in order, for exactly the trimmed segments that have at least 20
    characters and whose lower-cased form contains a security keyword.  The
    item carries the trimmed segment, the matched keywords, the source and
    the type control_statement; its confidence is medium when more than one
    keyword matched and low otherwise, and never high.  Hence every item of
    high confidence in the library (the items of [extract_all] and the web
    search results turned into evidence) is a table entry, a certification,
    a web-search incident or a web control rated HIGH. *)
Theorem C9_extract_from_text_items :
  forall txt source_ref,
    let items := extract_from_text txt source_ref in
    map text items
    = filter (fun trimmed =>
                (20 <=? String.length trimmed)
                && negb (Nat.eqb
                           (List.length (matched_keywords (PyStr.lower trimmed)))
                           0))
             (map PyStr.strip (PyStr.re_split_sentences txt))
    /\ Forall (fun item =>
                (forall kw, In kw (keywords item) <->
                   In kw SECURITY_KEYWORDS
                   /\ PyStr.contains kw (PyStr.lower (text item)) = true)
                /\ source item = source_ref
                /\ type item = "control_statement"
                /\ (1 < List.length (keywords item) -> confidence item = "medium")
                /\ (List.length (keywords item) <= 1 -> confidence item = "low")
                /\ confidence item <> "high"
                /\ confidence item <> "HIGH")
             items
    /\ (forall finditer parsed_documents search_results item,
          In item (extract_all finditer parsed_documents
                   ++ map Evidence
                        (WebSearchAgent.to_evidence_format search_results)) ->
          item_confidence item = "high" \/ item_confidence item = "HIGH" ->
          In (item_type item)
             ["table_entry"; "certification"; "web_search_incident";
              "web_search_control"]).
Proof.
  intros txt source_ref items.
  assert (Hany : forall t r item, In item (extract_from_text t r) ->
            confidence item = "medium" \/ confidence item = "low").
  { intros t r item H. apply in_extract_from_text in H.
    destruct H as (_ & _ & _ & _ & -> & _).
    destruct (1 <? List.length (keywords item)); auto. }
  pose proof (Hany txt source_ref) as Hitems. fold items in Hitems.
  split; [|split].
  - unfold items. rewrite extract_from_text_texts. apply filter_ext.
    intros s. unfold yields_item.
    destruct (matched_keywords (PyStr.lower s)); reflexivity.
  - apply Forall_forall. intros item H.
    pose proof (Hitems item H) as Hc.
    apply in_extract_from_text in H.
    destruct H as (Hk & Hne & Hs & Ht & Hconf & _).
    split; [intros kw; rewrite Hk; apply in_matched_keywords|].
    split; [exact Hs|]. split; [exact Ht|].
    split; [intros Hlt; apply Nat.ltb_lt in Hlt; rewrite Hconf, Hlt; reflexivity|].
    split.
    { intros Hle. rewrite Hconf.
      destruct (1 <? List.length (keywords item)) eqn:E; [|reflexivity].
      apply Nat.ltb_lt in E. lia. }
    split; destruct Hc as [-> | ->]; discriminate.
  - intros finditer docs results item H Hhigh. apply in_app_or in H.
    destruct H as [H|H].
    + apply in_extract_all in H.
      destruct H as [(t & r & e & -> & H)|[(t & r & e & -> & H)|(t & r & c & -> & H)]].
      * simpl in Hhigh.
        destruct (Hany t r e H) as [E|E]; rewrite E in Hhigh;
          destruct Hhigh; discriminate.
      * apply in_extract_from_table in H. destruct H as [_ H].
        simpl. rewrite H. auto.
      * apply in_extract_certifications in H. destruct H as [_ H].
        simpl. rewrite H. auto.
    + apply in_map_iff in H. destruct H as [e [<- H]].
      apply in_to_evidence_format in H. simpl.
      destruct H as [H|[H _]]; rewrite H; auto.
Qed.

Lemma C9_extract_from_text_witness :
  In (item_type (Evidence sample_table_entry))
     ["table_entry"; "certification"; "web_search_incident";
      "web_search_control"].
Proof.
  destruct (C9_extract_from_text_items
              "We use TLS encryption for all data in transit. Noted."
              "policy.pdf (Page 1)") as (_ & _ & H).
  apply (H sample_finditer [sample_document]
           {| WebSearchAgent.controls := []; WebSearchAgent.incidents := [] |}).
  - vm_compute. right. right. left. reflexivity.
  - left. reflexivity.
Defined.

(** C9 as stated fails: a segment of 28 characters that names two keywords
    yields no item, because its trimmed form has 18 characters. *)
Lemma C9_padded_segment_yields_no_item :
  let txt := "          MFA and TLS in use" in
  PyStr.re_split_sentences txt = [txt]
  /\ String.length txt = 28
  /\ matched_keywords (PyStr.lower txt) = ["mfa"; "tls"]
  /\ String.length (PyStr.strip txt) = 18
  /\ extract_from_text txt "policy.pdf (Page 1)" = [].
Proof. repeat split. Qed.

End ExtractorClaims.
